(** * Verification of the simple-vad-demo backend audio pipeline

    Shallow embedding of
      - services/audio_service.py      (AudioService)
      - services/vad_processor.py      (SileroVADProcessor)
      - services/vad_service.py        (VADService)
      - services/connection_service.py (AudioSession, ConnectionService)
      - api/websocket.py, api/health.py
    and the properties of the pipeline
      decode -> resample -> framing -> scorer -> hysteresis -> messages.

    Conventions.
      - A Python [float] / numpy [float32] value is modelled by the rational
        it denotes ([Q]); the pipeline only copies samples and compares
        confidences, and comparison of finite floats is comparison of their
        rational values.
      - A Python [int] is a [Z]; a [len(...)] and an array index are [nat].
      - An object mutated in place becomes a record threaded through the
        method: a method returns the updated [self] next to its result.
      - A call that can raise returns a [result].
      - The decoder and the scorer belong to other libraries.  In the
        modules below a session holds, for each, the answer it gives to the
        call at hand; module [Live] has them as objects with a state of
        their own, for what depends on that state across calls. *)

From Stdlib Require Import ZArith QArith Lia.
From stdpp Require Import gmap strings list.

Local Open Scope nat_scope.

(** ** Python values *)

Definition float := Q.

Definition bytes := list Byte.byte.

Inductive result (A : Type) : Type :=
| Ok (a : A)
| Raised.
Arguments Ok {A} a.
Arguments Raised {A}.

(** [x > y] on floats. *)
Definition float_gt (x y : float) : bool := negb (Qle_bool x y).

(** [x < y] on floats. *)
Definition float_lt (x y : float) : bool := negb (Qle_bool y x).

(** [n >= x] for an int [n] and a float [x] (Python compares them exactly). *)
Definition int_ge_float (n : Z) (x : float) : bool := Qle_bool x (inject_Z n).

(** ** numpy helpers used by the resampler *)

(** [np.arange(0, n, 1.5).astype(int)]: [ceil(n / 1.5)] values, the [k]-th
    being [k * 1.5] truncated, that is [3k / 2] rounded down. *)
Definition arange_1_5 (n : nat) : list nat :=
  map (fun k => (3 * k) / 2) (seq 0 ((2 * n + 2) / 3)).

(** [a[indices]] for an integer index array; every index the resampler
    builds is in range (see [arange_1_5_lt]), so no lookup is dropped. *)
Definition fancy_index {A} (a : list A) (indices : list nat) : list A :=
  omap (fun i => a !! i) indices.

(** ** services/audio_service.py *)

Module AudioService.

(** The decoder object [sphn.OpusStreamReader]: its [append_bytes]. *)
Definition OpusStreamReader := bytes -> result (list float).

Record t := {
  sample_rate : Z;
  opus_reader : OpusStreamReader;
  audio_buffer : list float
}.

Definition set_audio_buffer (self : t) (b : list float) : t :=
  {| sample_rate := sample_rate self;
     opus_reader := opus_reader self;
     audio_buffer := b |}.

(** [AudioService.__init__], the reader built by [sphn.OpusStreamReader]
    being given. *)
Definition init (reader : OpusStreamReader) : t :=
  {| sample_rate := 24000%Z; opus_reader := reader; audio_buffer := [] |}.

(** [decode_opus]: [None] when the reader raises or returns no sample. *)
Definition decode_opus (self : t) (opus_data : bytes) : option (list float) :=
  match opus_reader self opus_data with
  | Ok audio_array =>
      if 0 <? length audio_array then Some audio_array else None
  | Raised => None
  end.

(** [resample_24k_to_16k]: the updated service and the returned array. *)
Definition resample_24k_to_16k (self : t) (audio_24k : list float)
  : t * list float :=
  let buffer := audio_buffer self ++ audio_24k in
  if 3 <=? length buffer then
    let indices := arange_1_5 (length buffer) in
    let resampled := fancy_index buffer indices in
    let last_used_idx := default 0 (last indices) in
    (set_audio_buffer self (drop last_used_idx buffer), resampled)
  else
    (set_audio_buffer self buffer, []).

(** [process_opus_chunk]: [None] when decoding fails or nothing comes out
    of the resampler. *)
Definition process_opus_chunk (self : t) (opus_data : bytes)
  : t * option (list float) :=
  match decode_opus self opus_data with
  | None => (self, None)
  | Some audio_24k =>
      let '(self', audio_16k) := resample_24k_to_16k self audio_24k in
      (self', if 0 <? length audio_16k then Some audio_16k else None)
  end.

Definition reset (self : t) : t := set_audio_buffer self [].

(** Feeding a list of chunks through successive calls, outputs
    concatenated. *)
Fixpoint resample_chunks (self : t) (chunks : list (list float))
  : t * list float :=
  match chunks with
  | [] => (self, [])
  | c :: rest =>
      let '(self1, out1) := resample_24k_to_16k self c in
      let '(self2, out2) := resample_chunks self1 rest in
      (self2, out1 ++ out2)
  end.

End AudioService.

(** ** models/messages.py *)

Inductive VADEvent : Type := speech_start | speech_end.

Record VADResult := {
  event : option VADEvent;
  confidence : float
}.

Inductive ServerMessage : Type :=
| VADEventMessage (event : VADEvent) (confidence : float) (timestamp : float)
| VADConfidenceMessage (confidence : float) (is_speaking : bool)
| ResetCompleteMessage (message : string).

(** ** services/vad_processor.py *)

Module SileroVADProcessor.

(** The scorer returned by [torch.hub.load]: frame and sample rate to
    confidence; [Raised] when the call raises. *)
Definition Model := list float -> Z -> result float.

Record t := {
  sample_rate : Z;
  speech_threshold : float;
  silence_threshold : float;
  min_speech_duration_ms : Z;
  min_silence_duration_ms : Z;
  is_speaking : bool;
  speech_frames : Z;
  silence_frames : Z;
  frames_per_ms : float;
  model : option Model
}.

Definition set_state (self : t) (speaking : bool) (speech silence : Z) : t :=
  {| sample_rate := sample_rate self;
     speech_threshold := speech_threshold self;
     silence_threshold := silence_threshold self;
     min_speech_duration_ms := min_speech_duration_ms self;
     min_silence_duration_ms := min_silence_duration_ms self;
     is_speaking := speaking;
     speech_frames := speech;
     silence_frames := silence;
     frames_per_ms := frames_per_ms self;
     model := model self |}.

(** [__init__] once [load_model] has succeeded with [loaded] (when loading
    fails the constructor re-raises and no processor exists).
    [frames_per_ms = sample_rate / 1000] is taken as the exact quotient,
    which the float quotient is at the rate the backend runs at
    (16000 / 1000 = 16.0). *)
Definition init (loaded : Model) (sample_rate : Z)
    (speech_threshold silence_threshold : float)
    (min_speech_duration_ms min_silence_duration_ms : Z) : t :=
  {| sample_rate := sample_rate;
     speech_threshold := speech_threshold;
     silence_threshold := silence_threshold;
     min_speech_duration_ms := min_speech_duration_ms;
     min_silence_duration_ms := min_silence_duration_ms;
     is_speaking := false;
     speech_frames := 0%Z;
     silence_frames := 0%Z;
     frames_per_ms := (inject_Z sample_rate / 1000)%Q;
     model := Some loaded |}.

(** [min_speech_duration_ms * frames_per_ms] *)
Definition min_speech_samples (self : t) : float :=
  (inject_Z (min_speech_duration_ms self) * frames_per_ms self)%Q.

(** [min_silence_duration_ms * frames_per_ms] *)
Definition min_silence_samples (self : t) : float :=
  (inject_Z (min_silence_duration_ms self) * frames_per_ms self)%Q.

Definition _apply_hysteresis (self : t) (confidence : float) (chunk_size : Z)
  : t * option VADEvent :=
  let chunk_duration_samples := chunk_size in
  if float_gt confidence (speech_threshold self) then
    let self1 :=
      set_state self (is_speaking self)
        (speech_frames self + chunk_duration_samples)%Z 0%Z in
    if negb (is_speaking self1)
       && int_ge_float (speech_frames self1) (min_speech_samples self1)
    then (set_state self1 true (speech_frames self1) (silence_frames self1),
          Some speech_start)
    else (self1, None)
  else if float_lt confidence (silence_threshold self) then
    let self1 :=
      set_state self (is_speaking self) 0%Z
        (silence_frames self + chunk_duration_samples)%Z in
    if is_speaking self1
       && int_ge_float (silence_frames self1) (min_silence_samples self1)
    then (set_state self1 false (speech_frames self1) (silence_frames self1),
          Some speech_end)
    else (self1, None)
  else
    (self, None).

(** [process_audio_chunk]: the scorer is called before any state is
    touched, so a raising scorer leaves [self] as it was. *)
Definition process_audio_chunk (self : t) (audio_chunk : list float)
  : t * result (option VADEvent * float) :=
  match model self with
  | None => (self, Ok (None, 0%Q))
  | Some m =>
      match m audio_chunk (sample_rate self) with
      | Raised => (self, Raised)
      | Ok confidence =>
          let '(self', event) :=
            _apply_hysteresis self confidence
              (Z.of_nat (length audio_chunk)) in
          (self', Ok (event, confidence))
      end
  end.

Definition reset_state (self : t) : t := set_state self false 0%Z 0%Z.

(** Successive [_apply_hysteresis] calls, one per frame given as
    (confidence, sample count): the final state and the per-frame results. *)
Fixpoint hysteresis_run (self : t) (frames : list (float * Z))
  : t * list (option VADEvent) :=
  match frames with
  | [] => (self, [])
  | (c, n) :: rest =>
      let '(self1, e) := _apply_hysteresis self c n in
      let '(self2, es) := hysteresis_run self1 rest in
      (self2, e :: es)
  end.

End SileroVADProcessor.

(** ** services/vad_service.py *)

Module VADService.

Definition VAD_CHUNK_SIZE : nat := 512.

Record t := {
  vad_processor : SileroVADProcessor.t;
  audio_buffer : list float
}.

(** [VADService()] with its default arguments. *)
Definition init (loaded : SileroVADProcessor.Model) : t :=
  {| vad_processor :=
       SileroVADProcessor.init loaded 16000%Z (1#2)%Q (3#10)%Q 150%Z 400%Z;
     audio_buffer := [] |}.

(** [process_audio]; the [except] branch is reached when the processor
    call raises, after the frame has been cut off the buffer. *)
Definition process_audio (self : t) (audio_chunk : list float)
  : t * VADResult :=
  let buffer := audio_buffer self ++ audio_chunk in
  if VAD_CHUNK_SIZE <=? length buffer then
    let vad_chunk := take VAD_CHUNK_SIZE buffer in
    let rest := drop VAD_CHUNK_SIZE buffer in
    match SileroVADProcessor.process_audio_chunk (vad_processor self) vad_chunk with
    | (p, Ok (event, confidence)) =>
        ({| vad_processor := p; audio_buffer := rest |},
         {| event := event; confidence := confidence |})
    | (p, Raised) =>
        ({| vad_processor := p; audio_buffer := rest |},
         {| event := None; confidence := 0%Q |})
    end
  else
    ({| vad_processor := vad_processor self; audio_buffer := buffer |},
     {| event := None; confidence := 0%Q |}).

Definition reset (self : t) : t :=
  {| vad_processor := SileroVADProcessor.reset_state (vad_processor self);
     audio_buffer := [] |}.

Definition is_speaking (self : t) : bool :=
  SileroVADProcessor.is_speaking (vad_processor self).

End VADService.

(** ** services/connection_service.py *)

Module AudioSession.

Record t := {
  audio_service : AudioService.t;
  vad_service : VADService.t
}.

(** [AudioSession()]: the two services with their default arguments, built
    around the decoder and the scorer the external libraries hand out. *)
Definition init (reader : AudioService.OpusStreamReader)
    (loaded : SileroVADProcessor.Model) : t :=
  {| audio_service := AudioService.init reader;
     vad_service := VADService.init loaded |}.

Definition reset (self : t) : t :=
  {| audio_service := AudioService.reset (audio_service self);
     vad_service := VADService.reset (vad_service self) |}.

End AudioSession.

(** A [WebSocket] object, known by its identity. *)
Definition WebSocket := positive.

Module ConnectionService.

Record t := {
  active_sessions : gmap WebSocket AudioSession.t
}.

(** [ConnectionService()] *)
Definition init : t := {| active_sessions := ∅ |}.

Section Collaborators.

(** What the libraries outside this repository provide: the reader
    [sphn.OpusStreamReader(24000)], the scorer [torch.hub.load(...)]
    returns, and [base64.b64decode]. *)
Variable sphn_reader : AudioService.OpusStreamReader.
Variable silero_vad : SileroVADProcessor.Model.
Variable b64decode : string -> result bytes.

Definition connect (self : t) (websocket : WebSocket) : t :=
  {| active_sessions :=
       <[websocket := AudioSession.init sphn_reader silero_vad]>
         (active_sessions self) |}.

Definition disconnect (self : t) (websocket : WebSocket) : t :=
  {| active_sessions := delete websocket (active_sessions self) |}.

(** The [try] block of [handle_audio_chunk], as a function of the
    session object it works on; [now] is the event-loop time read for the
    timestamp of an event message.  Returns the session as the block
    leaves it and the messages passed to [send_message], in order. *)
Definition audio_chunk_body (session : AudioSession.t) (now : float)
    (data : string) : AudioSession.t * list ServerMessage :=
  match b64decode data with
  | Raised => (session, [])
  | Ok opus_data =>
      let '(audio_service1, audio_16k) :=
        AudioService.process_opus_chunk
          (AudioSession.audio_service session) opus_data in
      match audio_16k with
      | None =>
          ({| AudioSession.audio_service := audio_service1;
              AudioSession.vad_service := AudioSession.vad_service session |},
           [])
      | Some audio_16k =>
          let '(vad_service1, vad_result) :=
            VADService.process_audio
              (AudioSession.vad_service session) audio_16k in
          let event_msg :=
            match event vad_result with
            | Some e => [VADEventMessage e (confidence vad_result) now]
            | None => []
            end in
          let confidence_msg :=
            if float_gt (confidence vad_result) (1#10)%Q
            then [VADConfidenceMessage (confidence vad_result)
                    (VADService.is_speaking vad_service1)]
            else [] in
          ({| AudioSession.audio_service := audio_service1;
              AudioSession.vad_service := vad_service1 |},
           event_msg ++ confidence_msg)
      end
  end.

(** [handle_audio_chunk]: the registered session object is mutated in
    place, which is the entry of the dict being replaced here. *)
Definition handle_audio_chunk (self : t) (now : float)
    (websocket : WebSocket) (data : string) : t * list ServerMessage :=
  match active_sessions self !! websocket with
  | None => (self, [])
  | Some session =>
      let '(session1, sent) := audio_chunk_body session now data in
      ({| active_sessions := <[websocket := session1]> (active_sessions self) |},
       sent)
  end.

Definition handle_reset (self : t) (websocket : WebSocket)
  : t * list ServerMessage :=
  match active_sessions self !! websocket with
  | None => (self, [])
  | Some session =>
      ({| active_sessions :=
            <[websocket := AudioSession.reset session]> (active_sessions self) |},
       [ResetCompleteMessage "VAD state reset successfully"])
  end.

(** One session fed a sequence of audio chunks, each with the loop time
    at which it is handled: the messages sent, in order. *)
Fixpoint session_run (session : AudioSession.t)
    (chunks : list (float * string)) : AudioSession.t * list ServerMessage :=
  match chunks with
  | [] => (session, [])
  | (now, data) :: rest =>
      let '(session1, sent1) := audio_chunk_body session now data in
      let '(session2, sent2) := session_run session1 rest in
      (session2, sent1 ++ sent2)
  end.

(** What a client can make happen to its session between connect and
    disconnect. *)
Inductive session_reachable : AudioSession.t -> Prop :=
| reach_init :
    session_reachable (AudioSession.init sphn_reader silero_vad)
| reach_chunk session now data :
    session_reachable session ->
    session_reachable (fst (audio_chunk_body session now data))
| reach_reset session :
    session_reachable session ->
    session_reachable (AudioSession.reset session).

End Collaborators.

Definition connection_count (self : t) : nat := size (active_sessions self).

End ConnectionService.

(** ** api/websocket.py and api/health.py *)

Module Api.

(** The two module-level objects: [api.websocket.connection_service] and
    [api.health.connection_service], each made by its own
    [ConnectionService()] call when its module is imported. *)
Record t := {
  websocket_connection_service : ConnectionService.t;
  health_connection_service : ConnectionService.t
}.

Definition init : t :=
  {| websocket_connection_service := ConnectionService.init;
     health_connection_service := ConnectionService.init |}.

Record HealthResponse := {
  status : string;
  active_connections : nat
}.

(** [GET /] *)
Definition root (app : t) : HealthResponse :=
  {| status := "running";
     active_connections :=
       ConnectionService.connection_count (health_connection_service app) |}.

(** [GET /health] *)
Definition health_check (app : t) : HealthResponse :=
  {| status := "healthy";
     active_connections :=
       ConnectionService.connection_count (health_connection_service app) |}.

(** What [websocket_endpoint] does over the life of a connection. *)
Inductive ws_action : Type :=
| Connect (websocket : WebSocket)
| AudioChunk (websocket : WebSocket) (now : float) (data : string)
| Reset (websocket : WebSocket)
| Disconnect (websocket : WebSocket).

Section Collaborators.

Variable sphn_reader : AudioService.OpusStreamReader.
Variable silero_vad : SileroVADProcessor.Model.
Variable b64decode : string -> result bytes.

Definition on_websocket (f : ConnectionService.t -> ConnectionService.t)
    (app : t) : t :=
  {| websocket_connection_service := f (websocket_connection_service app);
     health_connection_service := health_connection_service app |}.

Definition ws_step (app : t) (a : ws_action) : t :=
  match a with
  | Connect w =>
      on_websocket
        (fun cs => ConnectionService.connect sphn_reader silero_vad cs w) app
  | AudioChunk w now data =>
      on_websocket
        (fun cs => fst (ConnectionService.handle_audio_chunk b64decode cs now w data))
        app
  | Reset w =>
      on_websocket (fun cs => fst (ConnectionService.handle_reset cs w)) app
  | Disconnect w =>
      on_websocket (fun cs => ConnectionService.disconnect cs w) app
  end.

Definition ws_run (app : t) (actions : list ws_action) : t :=
  foldl ws_step app actions.

End Collaborators.

(** Live sessions: the entries of the registry the websocket endpoint
    keeps. *)
Definition live_sessions (app : t) : nat :=
  ConnectionService.connection_count (websocket_connection_service app).

End Api.

(** ** Stand-ins for the external libraries, for running the model *)

Module Fixtures.

(** A decoder that yields one sample per byte and rejects a chunk that
    starts with the byte of ["!"]. *)
Definition reader : AudioService.OpusStreamReader :=
  fun data =>
    match data with
    | Byte.x21 :: _ => Raised
    | _ => Ok (map (fun b => (inject_Z (Z.of_N (Byte.to_N b)) / 256)%Q) data)
    end.

(** A scorer that reports the first sample of the frame as confidence and
    raises on a frame that starts with a negative sample. *)
Definition scorer : SileroVADProcessor.Model :=
  fun frame _ =>
    match frame with
    | x :: _ => if float_lt x 0%Q then Raised else Ok x
    | [] => Raised
    end.

Definition b64decode : string -> result bytes :=
  fun s => Ok (String.list_byte_of_string s).

(** [SileroVADProcessor()] with its default arguments. *)
Definition processor : SileroVADProcessor.t :=
  SileroVADProcessor.init scorer 16000%Z (1#2)%Q (3#10)%Q 100%Z 300%Z.

Definition session : AudioSession.t := AudioSession.init reader scorer.

(** A message of [n] bytes that all decode to the sample 200/256. *)
Fixpoint loud (n : nat) : string :=
  match n with
  | O => EmptyString
  | S k => String (Ascii.ascii_of_byte Byte.xc8) (loud k)
  end.

(** A session after the given audio messages, all handled at time 0. *)
Definition fed (data : list string) : AudioSession.t :=
  foldl (fun s d => fst (ConnectionService.audio_chunk_body b64decode s 0%Q d))
    session data.

(** Five messages of 768 loud samples: one frame each, enough to start
    speech. *)
Definition speaking_session : AudioSession.t :=
  fed (replicate 5 (loud 768)).

End Fixtures.

(** ** Vocabulary of the properties *)

(** Total sample count of a run of frames. *)
Definition total_samples (sizes : list Z) : Z := foldr Z.add 0%Z sizes.

(** The events of a trace, in order, silent frames left out. *)
Definition emitted (results : list (option VADEvent)) : list VADEvent :=
  omap id results.

(** [alternating speaking events]: starting in state [speaking], each event
    is the one that leaves the current state. *)
Fixpoint alternating (speaking : bool) (events : list VADEvent) : Prop :=
  match events with
  | [] => True
  | e :: rest =>
      e = (if speaking then speech_end else speech_start)
      /\ alternating (negb speaking) rest
  end.

(** The closed interval between the two thresholds of a processor. *)
Definition in_dead_zone (p : SileroVADProcessor.t) (c : float) : Prop :=
  (SileroVADProcessor.silence_threshold p <= c)%Q
  /\ (c <= SileroVADProcessor.speech_threshold p)%Q.

(** Frames of the given sample counts, all scored [c]. *)
Definition sustained (c : float) (sizes : list Z) : list (float * Z) :=
  map (fun n => (c, n)) sizes.

(** The service with the scorer of its processor replaced. *)
Definition with_scorer (m : option SileroVADProcessor.Model) (v : VADService.t)
  : VADService.t :=
  let p := VADService.vad_processor v in
  {| VADService.vad_processor :=
       {| SileroVADProcessor.sample_rate := SileroVADProcessor.sample_rate p;
          SileroVADProcessor.speech_threshold := SileroVADProcessor.speech_threshold p;
          SileroVADProcessor.silence_threshold := SileroVADProcessor.silence_threshold p;
          SileroVADProcessor.min_speech_duration_ms :=
            SileroVADProcessor.min_speech_duration_ms p;
          SileroVADProcessor.min_silence_duration_ms :=
            SileroVADProcessor.min_silence_duration_ms p;
          SileroVADProcessor.is_speaking := SileroVADProcessor.is_speaking p;
          SileroVADProcessor.speech_frames := SileroVADProcessor.speech_frames p;
          SileroVADProcessor.silence_frames := SileroVADProcessor.silence_frames p;
          SileroVADProcessor.frames_per_ms := SileroVADProcessor.frames_per_ms p;
          SileroVADProcessor.model := m |};
     VADService.audio_buffer := VADService.audio_buffer v |}.

(** ** Runs of the frame accumulator *)

(** Successive [VADService.process_audio] calls, one per chunk: the service
    at the end and the results in order. *)
Fixpoint vad_feed (s : VADService.t) (chunks : list (list float))
  : VADService.t * list VADResult :=
  match chunks with
  | [] => (s, [])
  | c :: rest =>
      let '(s1, r) := VADService.process_audio s c in
      let '(s2, rs) := vad_feed s1 rest in
      (s2, r :: rs)
  end.

(** ** api/websocket.py: the endpoint *)

Module Endpoint.

(** What [json.loads] returns. *)
Local Unset Elimination Schemes.
Inductive json : Type :=
| JNull
| JBool (b : bool)
| JNumber (x : float)
| JString (s : string)
| JArray (items : list json)
| JObject (members : gmap string json).
Local Set Elimination Schemes.

(** [v == s] for the value [v] that [dict.get] returned and a string [s]. *)
Definition equals_str (v : option json) (s : string) : bool :=
  match v with
  | Some (JString t) => String.eqb t s
  | _ => false
  end.

(** [AudioChunkMessage] built from the entries of [message_dict] as keyword
    arguments: the model of models/messages.py wants [type] to be the literal
    and [data] to be a string, and ignores other keys; the result is
    [message.data], [Raised] is a [ValidationError]. *)
Definition AudioChunkMessage (message_dict : gmap string json) : result string :=
  match message_dict !! "type", message_dict !! "data" with
  | Some (JString t), Some (JString data) =>
      if String.eqb t "audio_chunk" then Ok data else Raised
  | _, _ => Raised
  end.

(** [ResetMessage] built from the entries of [message_dict]. *)
Definition ResetMessage (message_dict : gmap string json) : result unit :=
  if equals_str (message_dict !! "type") "reset" then Ok tt else Raised.

Section Collaborators.

Variable sphn_reader : AudioService.OpusStreamReader.
Variable silero_vad : SileroVADProcessor.Model.
Variable b64decode : string -> result bytes.

(** The body of the receive loop for one text frame: [parsed] is what
    [json.loads(data)] gave ([Raised] for a [JSONDecodeError]), [now] the loop
    time.  A value that is no dict has no [get]: the [AttributeError] ends in
    the last [except], like any other exception. *)
Definition on_text (cs : ConnectionService.t) (websocket : WebSocket)
    (now : float) (parsed : result json)
  : ConnectionService.t * list ServerMessage :=
  match parsed with
  | Raised => (cs, [])
  | Ok (JObject message_dict) =>
      let type := message_dict !! "type" in
      if equals_str type "audio_chunk" then
        match AudioChunkMessage message_dict with
        | Ok data =>
            ConnectionService.handle_audio_chunk b64decode cs now websocket data
        | Raised => (cs, [])
        end
      else if equals_str type "reset" then
        match ResetMessage message_dict with
        | Ok _ => ConnectionService.handle_reset cs websocket
        | Raised => (cs, [])
        end
      else if equals_str type "test" then (cs, [])
      else (cs, [])
  | Ok _ => (cs, [])
  end.

(** The receive loop over the text frames that arrive before the client
    disconnects. *)
Fixpoint receive_loop (cs : ConnectionService.t) (websocket : WebSocket)
    (received : list (float * result json))
  : ConnectionService.t * list ServerMessage :=
  match received with
  | [] => (cs, [])
  | (now, parsed) :: rest =>
      let '(cs1, sent1) := on_text cs websocket now parsed in
      let '(cs2, sent2) := receive_loop cs1 websocket rest in
      (cs2, sent1 ++ sent2)
  end.

(** [websocket_endpoint] for one connection, from accept to the [finally]
    that follows the disconnect. *)
Definition websocket_endpoint (cs : ConnectionService.t) (websocket : WebSocket)
    (received : list (float * result json))
  : ConnectionService.t * list ServerMessage :=
  let cs0 := ConnectionService.connect sphn_reader silero_vad cs websocket in
  let '(cs1, sent) := receive_loop cs0 websocket received in
  (ConnectionService.disconnect cs1 websocket, sent).

End Collaborators.

End Endpoint.

(** A frame whose confidence is above the speech threshold [speech] or
    below the silence threshold [silence]. *)
Definition outside_dead_zone (speech silence : float) (f : float * Z) : bool :=
  float_gt (fst f) speech || float_lt (fst f) silence.

(** What holds of the processor of a session built with the default
    arguments, after any frames of 512 samples: both runs are whole numbers
    of frames, a silent processor has not yet reached the minimum speech run
    (2400 samples), a speaking one has not yet reached the minimum silence run
    (6400 samples). *)
Definition frame_aligned (p : SileroVADProcessor.t) : Prop :=
  (SileroVADProcessor.min_speech_samples p == 2400)%Q
  /\ (SileroVADProcessor.min_silence_samples p == 6400)%Q
  /\ SileroVADProcessor.speech_threshold p = (1#2)%Q
  /\ SileroVADProcessor.silence_threshold p = (3#10)%Q
  /\ (SileroVADProcessor.speech_frames p mod 512 = 0)%Z
  /\ (SileroVADProcessor.silence_frames p mod 512 = 0)%Z
  /\ (0 <= SileroVADProcessor.speech_frames p)%Z
  /\ (0 <= SileroVADProcessor.silence_frames p)%Z
  /\ (SileroVADProcessor.is_speaking p = false ->
      (SileroVADProcessor.speech_frames p < 2400)%Z)
  /\ (SileroVADProcessor.is_speaking p = true ->
      (SileroVADProcessor.silence_frames p < 6400)%Z).

(** ** More stand-ins *)

Module MoreFixtures.

(** A message of [n] bytes that all decode to the sample 48/256. *)
Fixpoint quiet (n : nat) : string :=
  match n with
  | O => EmptyString
  | S k => String (Ascii.ascii_of_byte Byte.x30) (quiet k)
  end.

(** A registry with two clients connected. *)
Definition two_clients : ConnectionService.t :=
  ConnectionService.connect Fixtures.reader Fixtures.scorer
    (ConnectionService.connect Fixtures.reader Fixtures.scorer
       ConnectionService.init 1%positive) 2%positive.

(** The JSON object of an audio chunk message with the given payload. *)
Definition audio_chunk_json (data : string) : Endpoint.json :=
  Endpoint.JObject
    (<["type" := Endpoint.JString "audio_chunk"]>
       (<["data" := Endpoint.JString data]> ∅)).

Definition reset_json : Endpoint.json :=
  Endpoint.JObject (<["type" := Endpoint.JString "reset"]> ∅).

End MoreFixtures.

(** The text frame [frame] is an audio chunk message of the protocol: a
    JSON object whose [type] is ["audio_chunk"] and whose [data] is the string
    of [chunk], received at the time of [chunk]. *)
Definition carries (frame : float * result Endpoint.json) (chunk : float * string)
  : Prop :=
  fst frame = fst chunk
  /\ exists d,
       snd frame = Ok (Endpoint.JObject d)
       /\ d !! "type" = Some (Endpoint.JString "audio_chunk")
       /\ d !! "data" = Some (Endpoint.JString (snd chunk)).

(** ** The session with its decoder and its scorer as objects

    [self.opus_reader] and [self.model] are objects with a state of their
    own, which the session never sees and never rebuilds.  Here a call on
    such an object takes the object as it is and returns, with the answer,
    the object as the call leaves it; the methods of the three classes are
    the same as above in every other respect. *)

Module Live.

Module AudioService.

Section Reader.

(** The states of an [sphn.OpusStreamReader] and its [append_bytes]. *)
Variable Reader : Type.
Variable append_bytes : Reader -> bytes -> Reader * result (list float).

Record t := {
  sample_rate : Z;
  opus_reader : Reader;
  audio_buffer : list float
}.

Definition set_opus_reader (self : t) (r : Reader) : t :=
  {| sample_rate := sample_rate self;
     opus_reader := r;
     audio_buffer := audio_buffer self |}.

Definition set_audio_buffer (self : t) (b : list float) : t :=
  {| sample_rate := sample_rate self;
     opus_reader := opus_reader self;
     audio_buffer := b |}.

(** [AudioService.__init__] around the reader [sphn.OpusStreamReader]
    hands out. *)
Definition init (reader : Reader) : t :=
  {| sample_rate := 24000%Z; opus_reader := reader; audio_buffer := [] |}.

Definition decode_opus (self : t) (opus_data : bytes)
  : t * option (list float) :=
  let '(reader, answer) := append_bytes (opus_reader self) opus_data in
  let self1 := set_opus_reader self reader in
  match answer with
  | Ok audio_array =>
      (self1, if 0 <? length audio_array then Some audio_array else None)
  | Raised => (self1, None)
  end.

Definition resample_24k_to_16k (self : t) (audio_24k : list float)
  : t * list float :=
  let buffer := audio_buffer self ++ audio_24k in
  if 3 <=? length buffer then
    let indices := arange_1_5 (length buffer) in
    let resampled := fancy_index buffer indices in
    let last_used_idx := default 0 (last indices) in
    (set_audio_buffer self (drop last_used_idx buffer), resampled)
  else
    (set_audio_buffer self buffer, []).

Definition process_opus_chunk (self : t) (opus_data : bytes)
  : t * option (list float) :=
  let '(self1, audio_24k) := decode_opus self opus_data in
  match audio_24k with
  | None => (self1, None)
  | Some audio_24k =>
      let '(self2, audio_16k) := resample_24k_to_16k self1 audio_24k in
      (self2, if 0 <? length audio_16k then Some audio_16k else None)
  end.

Definition reset (self : t) : t := set_audio_buffer self [].

End Reader.

End AudioService.

Module SileroVADProcessor.

Section Net.

(** The states of the loaded model and a call of it on a frame. *)
Variable Net : Type.
Variable forward : Net -> list float -> Z -> Net * result float.

Record t := {
  sample_rate : Z;
  speech_threshold : float;
  silence_threshold : float;
  min_speech_duration_ms : Z;
  min_silence_duration_ms : Z;
  is_speaking : bool;
  speech_frames : Z;
  silence_frames : Z;
  frames_per_ms : float;
  model : option Net
}.

Definition set_state (self : t) (speaking : bool) (speech silence : Z) : t :=
  {| sample_rate := sample_rate self;
     speech_threshold := speech_threshold self;
     silence_threshold := silence_threshold self;
     min_speech_duration_ms := min_speech_duration_ms self;
     min_silence_duration_ms := min_silence_duration_ms self;
     is_speaking := speaking;
     speech_frames := speech;
     silence_frames := silence;
     frames_per_ms := frames_per_ms self;
     model := model self |}.

Definition set_model (self : t) (m : option Net) : t :=
  {| sample_rate := sample_rate self;
     speech_threshold := speech_threshold self;
     silence_threshold := silence_threshold self;
     min_speech_duration_ms := min_speech_duration_ms self;
     min_silence_duration_ms := min_silence_duration_ms self;
     is_speaking := is_speaking self;
     speech_frames := speech_frames self;
     silence_frames := silence_frames self;
     frames_per_ms := frames_per_ms self;
     model := m |}.

Definition init (loaded : Net) (sample_rate : Z)
    (speech_threshold silence_threshold : float)
    (min_speech_duration_ms min_silence_duration_ms : Z) : t :=
  {| sample_rate := sample_rate;
     speech_threshold := speech_threshold;
     silence_threshold := silence_threshold;
     min_speech_duration_ms := min_speech_duration_ms;
     min_silence_duration_ms := min_silence_duration_ms;
     is_speaking := false;
     speech_frames := 0%Z;
     silence_frames := 0%Z;
     frames_per_ms := (inject_Z sample_rate / 1000)%Q;
     model := Some loaded |}.

Definition min_speech_samples (self : t) : float :=
  (inject_Z (min_speech_duration_ms self) * frames_per_ms self)%Q.

Definition min_silence_samples (self : t) : float :=
  (inject_Z (min_silence_duration_ms self) * frames_per_ms self)%Q.

Definition _apply_hysteresis (self : t) (confidence : float) (chunk_size : Z)
  : t * option VADEvent :=
  let chunk_duration_samples := chunk_size in
  if float_gt confidence (speech_threshold self) then
    let self1 :=
      set_state self (is_speaking self)
        (speech_frames self + chunk_duration_samples)%Z 0%Z in
    if negb (is_speaking self1)
       && int_ge_float (speech_frames self1) (min_speech_samples self1)
    then (set_state self1 true (speech_frames self1) (silence_frames self1),
          Some speech_start)
    else (self1, None)
  else if float_lt confidence (silence_threshold self) then
    let self1 :=
      set_state self (is_speaking self) 0%Z
        (silence_frames self + chunk_duration_samples)%Z in
    if is_speaking self1
       && int_ge_float (silence_frames self1) (min_silence_samples self1)
    then (set_state self1 false (speech_frames self1) (silence_frames self1),
          Some speech_end)
    else (self1, None)
  else
    (self, None).

(** [process_audio_chunk]: the model is left as its call leaves it, also
    when the call raises. *)
Definition process_audio_chunk (self : t) (audio_chunk : list float)
  : t * result (option VADEvent * float) :=
  match model self with
  | None => (self, Ok (None, 0%Q))
  | Some net =>
      let '(net1, answer) := forward net audio_chunk (sample_rate self) in
      let self1 := set_model self (Some net1) in
      match answer with
      | Raised => (self1, Raised)
      | Ok confidence =>
          let '(self2, event) :=
            _apply_hysteresis self1 confidence
              (Z.of_nat (length audio_chunk)) in
          (self2, Ok (event, confidence))
      end
  end.

Definition reset_state (self : t) : t := set_state self false 0%Z 0%Z.

End Net.

End SileroVADProcessor.

Module VADService.

Definition VAD_CHUNK_SIZE : nat := 512.

Section Net.

Variable Net : Type.
Variable forward : Net -> list float -> Z -> Net * result float.

Record t := {
  vad_processor : SileroVADProcessor.t Net;
  audio_buffer : list float
}.

Definition init (loaded : Net) : t :=
  {| vad_processor :=
       SileroVADProcessor.init Net loaded 16000%Z (1#2)%Q (3#10)%Q 150%Z 400%Z;
     audio_buffer := [] |}.

Definition process_audio (self : t) (audio_chunk : list float)
  : t * VADResult :=
  let buffer := audio_buffer self ++ audio_chunk in
  if VAD_CHUNK_SIZE <=? length buffer then
    let vad_chunk := take VAD_CHUNK_SIZE buffer in
    let rest := drop VAD_CHUNK_SIZE buffer in
    match SileroVADProcessor.process_audio_chunk Net forward
            (vad_processor self) vad_chunk with
    | (p, Ok (event, confidence)) =>
        ({| vad_processor := p; audio_buffer := rest |},
         {| event := event; confidence := confidence |})
    | (p, Raised) =>
        ({| vad_processor := p; audio_buffer := rest |},
         {| event := None; confidence := 0%Q |})
    end
  else
    ({| vad_processor := vad_processor self; audio_buffer := buffer |},
     {| event := None; confidence := 0%Q |}).

Definition reset (self : t) : t :=
  {| vad_processor := SileroVADProcessor.reset_state Net (vad_processor self);
     audio_buffer := [] |}.

Definition is_speaking (self : t) : bool :=
  SileroVADProcessor.is_speaking Net (vad_processor self).

End Net.

End VADService.

Module AudioSession.

Section Objects.

Variable Reader : Type.
Variable append_bytes : Reader -> bytes -> Reader * result (list float).
Variable Net : Type.
Variable forward : Net -> list float -> Z -> Net * result float.
Variable b64decode : string -> result bytes.

Record t := {
  audio_service : AudioService.t Reader;
  vad_service : VADService.t Net
}.

(** [AudioSession()] around the reader and the model the libraries hand
    out. *)
Definition init (reader : Reader) (loaded : Net) : t :=
  {| audio_service := AudioService.init Reader reader;
     vad_service := VADService.init Net loaded |}.

Definition reset (self : t) : t :=
  {| audio_service := AudioService.reset Reader (audio_service self);
     vad_service := VADService.reset Net (vad_service self) |}.

(** The [try] block of [ConnectionService.handle_audio_chunk] on this
    session. *)
Definition audio_chunk_body (session : t) (now : float) (data : string)
  : t * list ServerMessage :=
  match b64decode data with
  | Raised => (session, [])
  | Ok opus_data =>
      let '(audio_service1, audio_16k) :=
        AudioService.process_opus_chunk Reader append_bytes
          (audio_service session) opus_data in
      match audio_16k with
      | None =>
          ({| audio_service := audio_service1;
              vad_service := vad_service session |}, [])
      | Some audio_16k =>
          let '(vad_service1, vad_result) :=
            VADService.process_audio Net forward (vad_service session) audio_16k in
          let event_msg :=
            match event vad_result with
            | Some e => [VADEventMessage e (confidence vad_result) now]
            | None => []
            end in
          let confidence_msg :=
            if float_gt (confidence vad_result) (1#10)%Q
            then [VADConfidenceMessage (confidence vad_result)
                    (VADService.is_speaking Net vad_service1)]
            else [] in
          ({| audio_service := audio_service1; vad_service := vad_service1 |},
           event_msg ++ confidence_msg)
      end
  end.

(** The session fed a sequence of audio chunks: the messages sent. *)
Fixpoint session_run (session : t) (chunks : list (float * string))
  : t * list ServerMessage :=
  match chunks with
  | [] => (session, [])
  | (now, data) :: rest =>
      let '(session1, sent1) := audio_chunk_body session now data in
      let '(session2, sent2) := session_run session1 rest in
      (session2, sent1 ++ sent2)
  end.

(** What a client can make happen to a session built around the reader
    [reader0] and the model [loaded0]. *)
Inductive session_reachable (reader0 : Reader) (loaded0 : Net) : t -> Prop :=
| reach_init : session_reachable reader0 loaded0 (init reader0 loaded0)
| reach_chunk session now data :
    session_reachable reader0 loaded0 session ->
    session_reachable reader0 loaded0 (fst (audio_chunk_body session now data))
| reach_reset session :
    session_reachable reader0 loaded0 session ->
    session_reachable reader0 loaded0 (reset session).

(** The session with the two objects put back to given states and nothing
    else touched. *)
Definition with_objects (reader : Reader) (loaded : Net) (self : t) : t :=
  {| audio_service :=
       AudioService.set_opus_reader Reader (audio_service self) reader;
     vad_service :=
       {| VADService.vad_processor :=
            SileroVADProcessor.set_model Net
              (VADService.vad_processor Net (vad_service self))
              (option_map (fun _ => loaded)
                 (SileroVADProcessor.model Net
                    (VADService.vad_processor Net (vad_service self))));
          VADService.audio_buffer :=
            VADService.audio_buffer Net (vad_service self) |} |}.

End Objects.

End AudioSession.

End Live.

(** A processor with its three state fields cleared and its model put to a
    given state. *)
Definition blank_processor (Net : Type) (n : Net)
    (p : Live.SileroVADProcessor.t Net) : Live.SileroVADProcessor.t Net :=
  Live.SileroVADProcessor.set_model Net
    (Live.SileroVADProcessor.reset_state Net p)
    (option_map (fun _ => n) (Live.SileroVADProcessor.model Net p)).

(** The events among the messages sent, in order. *)
Definition event_messages (sent : list ServerMessage) : list VADEvent :=
  omap (fun m => match m with VADEventMessage e _ _ => Some e | _ => None end) sent.

(** Stand-ins with a state: a stream reader whose first chunk is the stream
    header and carries no sample, and a scorer that averages the first sample
    of the frame with its previous answer. *)
Module LiveFixtures.

Definition Reader : Type := bool.

Definition new_reader : Reader := false.

Definition append_bytes (header_seen : Reader) (data : bytes)
  : Reader * result (list float) :=
  if header_seen then (true, Fixtures.reader data) else (true, Ok []).

Definition Net : Type := float.

Definition loaded : Net := 0%Q.

Definition forward (previous : Net) (frame : list float) (rate : Z)
  : Net * result float :=
  match Fixtures.scorer frame rate with
  | Ok x => let c := Qred ((x + previous) / 2)%Q in (c, Ok c)
  | Raised => (previous, Raised)
  end.

(** A scorer without memory on the same frames. *)
Definition forward_plain (u : unit) (frame : list float) (rate : Z)
  : unit * result float :=
  (u, Fixtures.scorer frame rate).

(** A reader without memory on the same chunks. *)
Definition append_bytes_plain (u : unit) (data : bytes)
  : unit * result (list float) :=
  (u, Fixtures.reader data).

(** The messages of five loud chunks. *)
Definition five_loud : list (float * string) :=
  replicate 5 (0%Q, Fixtures.loud 768).

(** With the stream reader: a new session, and a session that has received
    six loud chunks, the header among them. *)
Definition new_streamed : Live.AudioSession.t Reader unit :=
  Live.AudioSession.init Reader unit new_reader tt.

Definition used_streamed : Live.AudioSession.t Reader unit :=
  fst (Live.AudioSession.session_run Reader append_bytes unit forward_plain
         Fixtures.b64decode new_streamed (replicate 6 (0%Q, Fixtures.loud 768))).

(** With the averaging scorer: a new session, and a session that has
    received six loud chunks. *)
Definition new_averaged : Live.AudioSession.t unit Net :=
  Live.AudioSession.init unit Net tt loaded.

Definition used_averaged : Live.AudioSession.t unit Net :=
  fst (Live.AudioSession.session_run unit append_bytes_plain Net forward
         Fixtures.b64decode new_averaged (replicate 6 (0%Q, Fixtures.loud 768))).

End LiveFixtures.

(** * Properties *)

(** ** Resampler *)

Lemma arange_1_5_lt (n i : nat) : In i (arange_1_5 n) -> i < n.
Proof.
  unfold arange_1_5. rewrite in_map_iff.
  intros (k & <- & Hk). apply in_seq in Hk. destruct Hk as [_ Hk].
  rewrite Nat.add_0_l in Hk.
  assert (Hd : 3 * ((2 * n + 2) / 3) <= 2 * n + 2)
    by (apply Nat.Div0.mul_div_le).
  apply Nat.Div0.div_lt_upper_bound. lia.
Qed.

Lemma fancy_index_length {A} (a : list A) (indices : list nat) :
  (forall i, In i indices -> i < length a) ->
  length (fancy_index a indices) = length indices.
Proof.
  unfold fancy_index. induction indices as [|i rest IH]; intros Hin.
  - reflexivity.
  - simpl. destruct (lookup_lt_is_Some_2 a i) as [x Hx].
    + apply Hin. now left.
    + rewrite Hx. simpl. f_equal. apply IH. intros j Hj. apply Hin. now right.
Qed.

(** Every index the resampler reads exists: the output of a call that
    resamples has [ceil(2n/3)] samples for a buffer of [n]. *)
Lemma resample_output_length (self : AudioService.t) (audio_24k : list float) :
  let n := length (AudioService.audio_buffer self ++ audio_24k) in
  3 <= n ->
  length (snd (AudioService.resample_24k_to_16k self audio_24k)) = (2 * n + 2) / 3.
Proof.
  intros n Hn. unfold AudioService.resample_24k_to_16k.
  fold n. destruct (Nat.leb_spec 3 n) as [_|Hlt]; [|lia].
  simpl. rewrite fancy_index_length.
  - unfold arange_1_5. now rewrite length_map, length_seq.
  - intros i Hi. now apply arange_1_5_lt.
Qed.

Example ex_arange_4 : arange_1_5 4 = [0; 1; 3].
Proof. reflexivity. Qed.

Example ex_arange_6 : arange_1_5 6 = [0; 1; 3; 4].
Proof. reflexivity. Qed.

(** C1 (the code departs from the claim): four samples fed in one call come
    out as samples 0, 1 and 3, while the same four samples fed as a chunk of
    three and a chunk of one come out as samples 0, 1, 1 and 2.  The remainder
    kept after a call starts AT the last sample already emitted, so that
    sample is emitted again by the next call. *)
Theorem resample_chunk_split_diverges (reader : AudioService.OpusStreamReader) :
  let fresh := AudioService.init reader in
  snd (AudioService.resample_chunks fresh [[1; 2; 3; 4]%Q]) = [1; 2; 4]%Q
  /\ snd (AudioService.resample_chunks fresh [[1; 2; 3]%Q; [4]%Q])
     = [1; 2; 2; 3]%Q.
Proof. split; reflexivity. Qed.

(** The same at the size of Opus frames: 960 samples in one call give 640
    samples, in two calls of 480 they give 642. *)
Example ex_resample_opus_frames (reader : AudioService.OpusStreamReader) :
  let fresh := AudioService.init reader in
  let frame := replicate 480 0%Q in
  length (snd (AudioService.resample_chunks fresh [frame ++ frame])) = 640
  /\ length (snd (AudioService.resample_chunks fresh [frame; frame])) = 642.
Proof. split; vm_compute; reflexivity. Qed.

(** ** Frame accumulation *)

(** C2 (as stated, fails): a fresh service given 1024 samples in one call
    releases one frame, which is scored, and returns with 512 samples, a whole
    frame, still in its buffer. *)
Lemma process_audio_keeps_a_full_frame :
  let s := VADService.init Fixtures.scorer in
  let chunk := replicate 1024 (9#10)%Q in
  VADService.VAD_CHUNK_SIZE <= length (VADService.audio_buffer s ++ chunk)
  /\ confidence (snd (VADService.process_audio s chunk)) = (9#10)%Q
  /\ ~ length (VADService.audio_buffer (fst (VADService.process_audio s chunk)))
       < VADService.VAD_CHUNK_SIZE.
Proof.
  cbv zeta. split; [|split].
  - vm_compute. lia.
  - vm_compute. reflexivity.
  - intros H. vm_compute in H. lia.
Qed.

(** C2 (amended): a call releases at most one frame.  When the buffer with
    the new chunk appended holds at least 512 samples, the frame handed to
    the processor is its first 512 samples and the buffer keeps all the rest,
    so its length drops by exactly 512; it ends below 512 when fewer than
    1024 samples were held.  Otherwise nothing is released and the buffer
    keeps every sample. *)
Theorem process_audio_releases_one_frame
    (s : VADService.t) (audio_chunk : list float) :
  let buffer := VADService.audio_buffer s ++ audio_chunk in
  let s' := fst (VADService.process_audio s audio_chunk) in
  VADService.VAD_CHUNK_SIZE <= length buffer ->
  VADService.vad_processor s'
    = fst (SileroVADProcessor.process_audio_chunk (VADService.vad_processor s)
             (take VADService.VAD_CHUNK_SIZE buffer))
  /\ length (take VADService.VAD_CHUNK_SIZE buffer) = VADService.VAD_CHUNK_SIZE
  /\ VADService.audio_buffer s' = drop VADService.VAD_CHUNK_SIZE buffer
  /\ length (VADService.audio_buffer s')
     = length buffer - VADService.VAD_CHUNK_SIZE
  /\ (length buffer < 2 * VADService.VAD_CHUNK_SIZE ->
      length (VADService.audio_buffer s') < VADService.VAD_CHUNK_SIZE).
Proof.
  intros buffer s' Hlen. subst s'. unfold VADService.process_audio. fold buffer.
  destruct (Nat.leb_spec VADService.VAD_CHUNK_SIZE (length buffer)) as [_|Hlt];
    [|lia].
  assert (Hrest : length (drop VADService.VAD_CHUNK_SIZE buffer)
                  = length buffer - VADService.VAD_CHUNK_SIZE)
    by apply length_drop.
  destruct (SileroVADProcessor.process_audio_chunk _ _) as [p [[e c]|]];
    cbn [fst VADService.vad_processor VADService.audio_buffer];
    (split; [reflexivity|]);
    (split; [rewrite length_take; lia|]);
    (split; [reflexivity|]);
    (split; [exact Hrest|]); lia.
Qed.

Lemma process_audio_releases_one_frame_witness :
  let s := VADService.init Fixtures.scorer in
  let chunk := replicate 600 (9#10)%Q in
  VADService.VAD_CHUNK_SIZE <= length (VADService.audio_buffer s ++ chunk)
  /\ length (VADService.audio_buffer (fst (VADService.process_audio s chunk)))
     = length (VADService.audio_buffer s ++ chunk) - VADService.VAD_CHUNK_SIZE.
Proof.
  cbv zeta.
  assert (H : VADService.VAD_CHUNK_SIZE
              <= length (VADService.audio_buffer (VADService.init Fixtures.scorer)
                         ++ replicate 600 (9#10)%Q))
    by (vm_compute; lia).
  split; [exact H|].
  apply (process_audio_releases_one_frame
           (VADService.init Fixtures.scorer) (replicate 600 (9#10)%Q) H).
Defined.

(** With no full frame available, the buffer just grows. *)
Lemma process_audio_buffering (s : VADService.t) (audio_chunk : list float) :
  length (VADService.audio_buffer s ++ audio_chunk) < VADService.VAD_CHUNK_SIZE ->
  VADService.process_audio s audio_chunk
  = ({| VADService.vad_processor := VADService.vad_processor s;
        VADService.audio_buffer := VADService.audio_buffer s ++ audio_chunk |},
     {| event := None; confidence := 0%Q |}).
Proof.
  intros Hlt. unfold VADService.process_audio.
  destruct (Nat.leb_spec VADService.VAD_CHUNK_SIZE
              (length (VADService.audio_buffer s ++ audio_chunk))) as [Hge|_];
    [lia|reflexivity].
Qed.

(** ** Hysteresis *)

Lemma float_gt_spec (x y : float) : float_gt x y = true <-> (y < x)%Q.
Proof.
  unfold float_gt. rewrite negb_true_iff, <- not_true_iff_false, Qle_bool_iff.
  split; [apply Qnot_le_lt | apply Qlt_not_le].
Qed.

Lemma float_lt_spec (x y : float) : float_lt x y = true <-> (x < y)%Q.
Proof. unfold float_lt. apply (float_gt_spec y x). Qed.

Lemma int_ge_float_spec (n : Z) (x : float) :
  int_ge_float n x = true <-> (x <= inject_Z n)%Q.
Proof. unfold int_ge_float. apply Qle_bool_iff. Qed.

Section Hysteresis.

Import SileroVADProcessor.

Lemma dead_zone_step (p : t) (c : float) (n : Z) :
  in_dead_zone p c -> _apply_hysteresis p c n = (p, None).
Proof.
  intros [Hlo Hhi]. unfold _apply_hysteresis.
  destruct (float_gt c (speech_threshold p)) eqn:Hgt.
  - apply float_gt_spec in Hgt. now apply Qlt_not_le in Hgt.
  - destruct (float_lt c (silence_threshold p)) eqn:Hlt; [|reflexivity].
    apply float_lt_spec in Hlt. now apply Qlt_not_le in Hlt.
Qed.

(** C4: a frame whose confidence lies in
    [silence_threshold, speech_threshold] leaves the whole processor, so
    [is_speaking] and both run counters, as it was and yields no event; a
    sequence of such frames of any length does the same. *)
Theorem hysteresis_dead_zone (p : t) (frames : list (float * Z)) :
  Forall (fun f => in_dead_zone p (fst f)) frames ->
  Forall (fun f => _apply_hysteresis p (fst f) (snd f) = (p, None)) frames
  /\ hysteresis_run p frames = (p, replicate (length frames) None).
Proof.
  induction 1 as [|[c n] rest Hc _ [IHstep IHrun]].
  - split; [constructor | reflexivity].
  - split.
    + constructor; [now apply dead_zone_step | exact IHstep].
    + cbn [hysteresis_run]. cbn [fst] in Hc.
      rewrite (dead_zone_step p c n Hc), IHrun. reflexivity.
Qed.

Lemma hysteresis_dead_zone_witness :
  let frames := [((2#5)%Q, 512%Z); ((1#2)%Q, 512%Z); ((3#10)%Q, 512%Z)] in
  Forall (fun f => in_dead_zone Fixtures.processor (fst f)) frames
  /\ hysteresis_run Fixtures.processor frames
     = (Fixtures.processor, [None; None; None]).
Proof.
  cbv zeta.
  assert (H : Forall (fun f => in_dead_zone Fixtures.processor (fst f))
                [((2#5)%Q, 512%Z); ((1#2)%Q, 512%Z); ((3#10)%Q, 512%Z)]).
  { repeat constructor; vm_compute; discriminate. }
  split; [exact H|].
  apply (hysteresis_dead_zone Fixtures.processor _ H).
Defined.

(** What one update does to [is_speaking], by the event it returns. *)
Lemma hysteresis_step_event (p : t) (c : float) (n : Z) :
  match _apply_hysteresis p c n with
  | (p', Some speech_start) => is_speaking p = false /\ is_speaking p' = true
  | (p', Some speech_end) => is_speaking p = true /\ is_speaking p' = false
  | (p', None) => is_speaking p' = is_speaking p
  end.
Proof.
  unfold _apply_hysteresis.
  destruct (float_gt c (speech_threshold p)).
  - cbn [is_speaking set_state speech_frames].
    destruct (is_speaking p) eqn:Hs; cbn [negb andb]; [now rewrite ?Hs|].
    destruct (int_ge_float _ _); cbn [is_speaking set_state]; auto.
  - destruct (float_lt c (silence_threshold p)); [|reflexivity].
    cbn [is_speaking set_state silence_frames].
    destruct (is_speaking p) eqn:Hs; cbn [andb]; [|now rewrite ?Hs].
    destruct (int_ge_float _ _); cbn [is_speaking set_state]; auto.
Qed.

Lemma hysteresis_run_alternating (frames : list (float * Z)) :
  forall p, alternating (is_speaking p) (emitted (snd (hysteresis_run p frames))).
Proof.
  induction frames as [|[c n] rest IH]; intros p.
  - exact I.
  - cbn [hysteresis_run].
    pose proof (hysteresis_step_event p c n) as Hstep.
    destruct (_apply_hysteresis p c n) as [p1 e].
    specialize (IH p1).
    destruct (hysteresis_run p1 rest) as [p2 es].
    cbn [snd] in *. unfold emitted in *.
    destruct e as [[|]|]; cbn [omap id]; simpl.
    + destruct Hstep as [H0 H1]. rewrite H0. rewrite H1 in IH. now split.
    + destruct Hstep as [H0 H1]. rewrite H0. rewrite H1 in IH. now split.
    + now rewrite <- Hstep.
Qed.

Lemma alternating_neighbours (events : list VADEvent) :
  forall speaking i e1 e2,
    alternating speaking events ->
    events !! i = Some e1 -> events !! S i = Some e2 -> e1 <> e2.
Proof.
  induction events as [|e rest IH]; intros speaking i e1 e2 Halt H1 H2.
  - discriminate.
  - destruct Halt as [He Hrest]. destruct i as [|i].
    + destruct rest as [|e' rest']; [discriminate|].
      destruct Hrest as [He' _]. cbn in H1, H2.
      injection H1 as <-. injection H2 as <-. subst.
      now destruct speaking.
    + apply (IH (negb speaking) i e1 e2 Hrest H1 H2).
Qed.

(** C9: an update returns [speech_start] only from [is_speaking = False],
    which it sets, and [speech_end] only from [is_speaking = True], which it
    clears, and otherwise leaves [is_speaking] alone; so the events of any
    run of frames alternate, and from a freshly built processor the first
    event is [speech_start] and no two consecutive events are equal. *)
Theorem hysteresis_events_alternate :
  (forall p c n,
      match _apply_hysteresis p c n with
      | (p', Some speech_start) => is_speaking p = false /\ is_speaking p' = true
      | (p', Some speech_end) => is_speaking p = true /\ is_speaking p' = false
      | (p', None) => is_speaking p' = is_speaking p
      end)
  /\ (forall p frames,
         alternating (is_speaking p) (emitted (snd (hysteresis_run p frames))))
  /\ (forall loaded rate speech silence speech_ms silence_ms frames,
         let fresh := init loaded rate speech silence speech_ms silence_ms in
         let events := emitted (snd (hysteresis_run fresh frames)) in
         (forall e, head events = Some e -> e = speech_start)
         /\ (forall i e1 e2,
                events !! i = Some e1 -> events !! S i = Some e2 -> e1 <> e2)).
Proof.
  split; [exact hysteresis_step_event|].
  split; [intros p frames; apply hysteresis_run_alternating|].
  intros loaded rate speech silence speech_ms silence_ms frames fresh events.
  pose proof (hysteresis_run_alternating frames fresh) as Halt.
  fold events in Halt. change (is_speaking fresh) with false in Halt.
  split.
  - intros e He. destruct events as [|e0 rest]; [discriminate|].
    injection He as <-. now destruct Halt.
  - intros i e1 e2. now apply alternating_neighbours with (speaking := false).
Qed.

End Hysteresis.

Section Debounce.

Import SileroVADProcessor.

(** Above the speech threshold and not yet speaking: the run grows, and
    the update fires exactly when it has reached the minimum. *)
Lemma speech_step_silent (p : t) (c : float) (n : Z) :
  is_speaking p = false ->
  (speech_threshold p < c)%Q ->
  _apply_hysteresis p c n
  = if int_ge_float (speech_frames p + n) (min_speech_samples p)
    then (set_state p true (speech_frames p + n) 0, Some speech_start)
    else (set_state p false (speech_frames p + n) 0, None).
Proof.
  intros Hs Hc. unfold _apply_hysteresis.
  apply float_gt_spec in Hc. rewrite Hc.
  cbn [is_speaking set_state speech_frames silence_frames]. rewrite Hs.
  cbn [negb andb].
  change (min_speech_samples (set_state p false (speech_frames p + n) 0))
    with (min_speech_samples p).
  now destruct (int_ge_float _ _).
Qed.

(** Above the speech threshold while speaking: no event, still speaking. *)
Lemma speech_run_speaking (c : float) (sizes : list Z) :
  forall p,
    is_speaking p = true ->
    (speech_threshold p < c)%Q ->
    snd (hysteresis_run p (sustained c sizes)) = replicate (length sizes) None.
Proof.
  induction sizes as [|n rest IH]; intros p Hs Hc; [reflexivity|].
  cbn [sustained map hysteresis_run]. fold (sustained c rest).
  assert (Hstep : _apply_hysteresis p c n
                  = (set_state p true (speech_frames p + n) 0, None)).
  { unfold _apply_hysteresis. apply float_gt_spec in Hc. rewrite Hc.
    cbn [is_speaking set_state]. rewrite Hs. reflexivity. }
  rewrite Hstep.
  specialize (IH (set_state p true (speech_frames p + n) 0) eq_refl Hc).
  destruct (hysteresis_run _ (sustained c rest)) as [p2 es].
  cbn [snd] in *. now rewrite IH.
Qed.

Lemma debounce_run (c : float) (M : Z) (sizes : list Z) :
  forall p,
    is_speaking p = false ->
    (speech_threshold p < c)%Q ->
    (min_speech_samples p == inject_Z M)%Q ->
    (speech_frames p < M)%Z ->
    (M <= speech_frames p + total_samples sizes)%Z ->
    exists pre n post,
      sizes = pre ++ n :: post
      /\ (forall k, k <= length pre ->
                    (speech_frames p + total_samples (take k pre) < M)%Z)
      /\ (M <= speech_frames p + total_samples pre + n)%Z
      /\ snd (hysteresis_run p (sustained c sizes))
         = replicate (length pre) None
           ++ Some speech_start :: replicate (length post) None.
Proof.
  induction sizes as [|n rest IH]; intros p Hs Hc Hmin Hlt Hsum.
  - cbn in Hsum. lia.
  - cbn [total_samples foldr] in Hsum. fold (total_samples rest) in Hsum.
    cbn [sustained map hysteresis_run]. fold (sustained c rest).
    rewrite (speech_step_silent p c n Hs Hc).
    destruct (int_ge_float (speech_frames p + n) (min_speech_samples p)) eqn:Hge.
    + apply int_ge_float_spec in Hge. rewrite Hmin in Hge.
      rewrite <- Zle_Qle in Hge.
      exists [], n, rest. split; [reflexivity|].
      split; [intros k _; rewrite take_nil; cbn; lia|].
      split; [cbn; lia|].
      pose proof (speech_run_speaking c rest
                    (set_state p true (speech_frames p + n) 0) eq_refl Hc) as Hrest.
      destruct (hysteresis_run _ (sustained c rest)) as [p2 es].
      cbn [snd] in *. now rewrite Hrest.
    + assert (Hlt' : (speech_frames p + n < M)%Z).
      { destruct (Z.lt_ge_cases (speech_frames p + n) M) as [|Hle]; [assumption|].
        rewrite Zle_Qle, <- Hmin in Hle.
        apply int_ge_float_spec in Hle. congruence. }
      destruct (IH (set_state p false (speech_frames p + n) 0) eq_refl Hc Hmin Hlt')
        as (pre & m & post & -> & Hpre & Hreach & Hev).
      { cbn [speech_frames set_state]. lia. }
      cbn [speech_frames set_state] in Hpre, Hreach.
      exists (n :: pre), m, post. split; [reflexivity|].
      split.
      { intros [|k] Hk.
        - cbn. lia.
        - cbn [take total_samples foldr length] in *.
          fold (total_samples (take k pre)).
          specialize (Hpre k). lia. }
      split.
      { cbn [total_samples foldr]. fold (total_samples pre). lia. }
      destruct (hysteresis_run _ (sustained c (pre ++ m :: post))) as [p2 es].
      cbn [snd] in *. now rewrite Hev.
Qed.

Lemma emitted_single (a b : nat) :
  emitted (replicate a None ++ Some speech_start :: replicate b None)
  = [speech_start].
Proof.
  unfold emitted. induction a as [|a IH]; cbn.
  - f_equal. induction b as [|b IHb]; [reflexivity | exact IHb].
  - exact IH.
Qed.

(** C3: with the speech threshold at 0.5 and the minimum speech duration at
    1600 samples, from the silent state with both counters at zero, frames
    all scored 0.9 whose sample counts add up to 1600 give one
    [speech_start] and nothing else: the frames split into a prefix along
    which the run stays below 1600 and no event comes out, the frame at
    which the run reaches 1600 and [speech_start] comes out, and the frames
    after it, without event. *)
Theorem hysteresis_debounce (p : t) (sizes : list Z) :
  is_speaking p = false ->
  speech_frames p = 0%Z ->
  silence_frames p = 0%Z ->
  (speech_threshold p == 1#2)%Q ->
  (min_speech_samples p == 1600)%Q ->
  total_samples sizes = 1600%Z ->
  exists pre n post,
    sizes = pre ++ n :: post
    /\ (forall k, k <= length pre -> (total_samples (take k pre) < 1600)%Z)
    /\ (1600 <= total_samples pre + n)%Z
    /\ snd (hysteresis_run p (sustained (9#10)%Q sizes))
       = replicate (length pre) None
         ++ Some speech_start :: replicate (length post) None
    /\ emitted (snd (hysteresis_run p (sustained (9#10)%Q sizes)))
       = [speech_start].
Proof.
  intros Hs Hsp _ Hth Hmin Hsum.
  assert (Hc : (speech_threshold p < 9#10)%Q) by (rewrite Hth; reflexivity).
  destruct (debounce_run (9#10)%Q 1600%Z sizes p Hs Hc Hmin)
    as (pre & n & post & Hsplit & Hpre & Hreach & Hev).
  { rewrite Hsp. lia. }
  { rewrite Hsp, Hsum. lia. }
  rewrite Hsp in Hpre, Hreach.
  exists pre, n, post. split; [exact Hsplit|].
  split; [intros k Hk; specialize (Hpre k Hk); lia|].
  split; [lia|].
  split; [exact Hev|].
  rewrite Hev. apply emitted_single.
Qed.

Lemma hysteresis_debounce_witness :
  total_samples [512; 512; 512; 64]%Z = 1600%Z
  /\ emitted (snd (hysteresis_run Fixtures.processor
                     (sustained (9#10)%Q [512; 512; 512; 64]%Z)))
     = [speech_start].
Proof.
  split; [reflexivity|].
  destruct (hysteresis_debounce Fixtures.processor [512; 512; 512; 64]%Z)
    as (pre & n & post & _ & _ & _ & _ & H);
    [reflexivity | reflexivity | reflexivity
     | vm_compute; reflexivity | vm_compute; reflexivity | reflexivity
     | exact H].
Defined.

Example ex_debounce_trace :
  snd (hysteresis_run Fixtures.processor
         (sustained (9#10)%Q [512; 512; 512; 64]%Z))
  = [None; None; None; Some speech_start].
Proof. vm_compute. reflexivity. Qed.

End Debounce.

(** ** Sessions *)

Example ex_speaking_session :
  VADService.is_speaking (AudioSession.vad_service Fixtures.speaking_session)
  = true
  /\ SileroVADProcessor.speech_frames
       (VADService.vad_processor
          (AudioSession.vad_service Fixtures.speaking_session)) = 2560%Z
  /\ length (AudioService.audio_buffer
               (AudioSession.audio_service Fixtures.speaking_session)) = 1
  /\ length (VADService.audio_buffer
               (AudioSession.vad_service Fixtures.speaking_session)) = 5.
Proof. vm_compute. repeat split; reflexivity. Qed.

Section Reset.

Variable sphn_reader : AudioService.OpusStreamReader.
Variable silero_vad : SileroVADProcessor.Model.
Variable b64decode : string -> result bytes.

Lemma apply_hysteresis_reset (p : SileroVADProcessor.t) (c : float) (n : Z) :
  SileroVADProcessor.reset_state
    (fst (SileroVADProcessor._apply_hysteresis p c n))
  = SileroVADProcessor.reset_state p.
Proof.
  unfold SileroVADProcessor._apply_hysteresis.
  repeat match goal with
         | |- context [if ?b then _ else _] => destruct b
         end; reflexivity.
Qed.

Lemma process_audio_chunk_reset (p : SileroVADProcessor.t) (chunk : list float) :
  SileroVADProcessor.reset_state
    (fst (SileroVADProcessor.process_audio_chunk p chunk))
  = SileroVADProcessor.reset_state p.
Proof.
  unfold SileroVADProcessor.process_audio_chunk.
  destruct (SileroVADProcessor.model p) as [m|]; [|reflexivity].
  destruct (m chunk _) as [c|]; [|reflexivity].
  pose proof (apply_hysteresis_reset p c (Z.of_nat (length chunk))) as H.
  now destruct (SileroVADProcessor._apply_hysteresis p c _).
Qed.

Lemma process_audio_reset (v : VADService.t) (chunk : list float) :
  VADService.reset (fst (VADService.process_audio v chunk)) = VADService.reset v.
Proof.
  unfold VADService.process_audio, VADService.reset.
  destruct (_ <=? _); [|reflexivity].
  pose proof (process_audio_chunk_reset (VADService.vad_processor v)
                (take VADService.VAD_CHUNK_SIZE
                   (VADService.audio_buffer v ++ chunk))) as H.
  destruct (SileroVADProcessor.process_audio_chunk _ _) as [p [[e c]|]];
    cbn [fst VADService.vad_processor] in *; now rewrite H.
Qed.

Lemma process_opus_chunk_reset (a : AudioService.t) (opus_data : bytes) :
  AudioService.reset (fst (AudioService.process_opus_chunk a opus_data))
  = AudioService.reset a.
Proof.
  unfold AudioService.process_opus_chunk.
  destruct (AudioService.decode_opus a opus_data) as [pcm|]; [|reflexivity].
  unfold AudioService.resample_24k_to_16k.
  destruct (_ <=? _); reflexivity.
Qed.

Lemma audio_chunk_body_reset (s : AudioSession.t) (now : float) (data : string) :
  AudioSession.reset (fst (ConnectionService.audio_chunk_body b64decode s now data))
  = AudioSession.reset s.
Proof.
  unfold ConnectionService.audio_chunk_body, AudioSession.reset.
  destruct (b64decode data) as [opus_data|]; [|reflexivity].
  pose proof (process_opus_chunk_reset (AudioSession.audio_service s) opus_data) as Ha.
  destruct (AudioService.process_opus_chunk _ _) as [a1 [pcm|]];
    cbn [fst] in Ha.
  - pose proof (process_audio_reset (AudioSession.vad_service s) pcm) as Hv.
    destruct (VADService.process_audio _ _) as [v1 r]. cbn [fst] in *.
    cbn [AudioSession.audio_service AudioSession.vad_service].
    now rewrite Ha, Hv.
  - cbn [fst AudioSession.audio_service AudioSession.vad_service].
    now rewrite Ha.
Qed.

(** Settings of a reachable session, in the model above where the reader
    and the scorer are the fields of the session: resetting the three pieces
    of state gives the value the constructor builds.  Used for the settings
    only; what [reset()] means for a session whose reader and scorer are
    objects is stated on [Live] below. *)
Lemma session_reachable_reset (s : AudioSession.t) :
  ConnectionService.session_reachable sphn_reader silero_vad b64decode s ->
  AudioSession.reset s = AudioSession.init sphn_reader silero_vad.
Proof.
  induction 1 as [|s now data _ IH|s _ IH].
  - reflexivity.
  - now rewrite audio_chunk_body_reset.
  - rewrite IH. reflexivity.
Qed.

End Reset.

Lemma fed_reachable (data : list string) :
  ConnectionService.session_reachable
    Fixtures.reader Fixtures.scorer Fixtures.b64decode (Fixtures.fed data).
Proof.
  unfold Fixtures.fed.
  assert (H : forall s,
             ConnectionService.session_reachable
               Fixtures.reader Fixtures.scorer Fixtures.b64decode s ->
             ConnectionService.session_reachable
               Fixtures.reader Fixtures.scorer Fixtures.b64decode
               (foldl (fun s d =>
                         fst (ConnectionService.audio_chunk_body
                                Fixtures.b64decode s 0%Q d)) s data)).
  { induction data as [|d rest IH]; intros s Hs; [exact Hs|].
    cbn [foldl]. apply IH. now apply ConnectionService.reach_chunk. }
  apply H. apply ConnectionService.reach_init.
Defined.

(** ** Failures of the external calls *)

(** Handling an audio chunk never removes the session from the registry. *)
Lemma handle_audio_chunk_keeps_session
    (b64decode : string -> result bytes) (cs : ConnectionService.t)
    (now : float) (websocket w : WebSocket) (data : string) :
  is_Some (ConnectionService.active_sessions cs !! w) ->
  is_Some (ConnectionService.active_sessions
             (fst (ConnectionService.handle_audio_chunk
                     b64decode cs now websocket data)) !! w).
Proof.
  intros Hw. unfold ConnectionService.handle_audio_chunk.
  destruct (ConnectionService.active_sessions cs !! websocket) as [session|] eqn:Hs;
    [|exact Hw].
  destruct (ConnectionService.audio_chunk_body b64decode session now data)
    as [session1 sent].
  cbn [fst ConnectionService.active_sessions].
  destruct (decide (websocket = w)) as [->|Hne].
  - rewrite lookup_insert_eq. eauto.
  - now rewrite lookup_insert_ne.
Qed.

(** C6: when a full frame is available and the scorer raises on it,
    [process_audio] returns a result with no event and confidence 0.0; the
    frame has been taken off the buffer and the hysteresis state is the one
    before the call.  The chunk handler then keeps every registered session
    registered, so later chunks are processed. *)
Theorem scorer_failure_fail_open
    (s : VADService.t) (audio_chunk : list float) (m : SileroVADProcessor.Model) :
  let buffer := VADService.audio_buffer s ++ audio_chunk in
  SileroVADProcessor.model (VADService.vad_processor s) = Some m ->
  VADService.VAD_CHUNK_SIZE <= length buffer ->
  m (take VADService.VAD_CHUNK_SIZE buffer)
    (SileroVADProcessor.sample_rate (VADService.vad_processor s)) = Raised ->
  VADService.process_audio s audio_chunk
  = ({| VADService.vad_processor := VADService.vad_processor s;
        VADService.audio_buffer := drop VADService.VAD_CHUNK_SIZE buffer |},
     {| event := None; confidence := 0%Q |})
  /\ forall b64decode cs now websocket data,
       is_Some (ConnectionService.active_sessions cs !! websocket) ->
       is_Some (ConnectionService.active_sessions
                  (fst (ConnectionService.handle_audio_chunk
                          b64decode cs now websocket data)) !! websocket).
Proof.
  intros buffer Hm Hlen Hraise. split.
  - unfold VADService.process_audio. fold buffer.
    destruct (Nat.leb_spec VADService.VAD_CHUNK_SIZE (length buffer)) as [_|Hlt];
      [|lia].
    unfold SileroVADProcessor.process_audio_chunk. rewrite Hm, Hraise.
    reflexivity.
  - intros b64decode cs now websocket data.
    apply handle_audio_chunk_keeps_session.
Qed.

Lemma scorer_failure_fail_open_witness :
  let s := VADService.init Fixtures.scorer in
  let chunk := replicate 512 (-1)%Q in
  Fixtures.scorer (take VADService.VAD_CHUNK_SIZE (VADService.audio_buffer s ++ chunk))
    (SileroVADProcessor.sample_rate (VADService.vad_processor s)) = Raised
  /\ snd (VADService.process_audio s chunk) = {| event := None; confidence := 0%Q |}.
Proof.
  cbv zeta.
  assert (H : Fixtures.scorer
                (take VADService.VAD_CHUNK_SIZE
                   (VADService.audio_buffer (VADService.init Fixtures.scorer)
                    ++ replicate 512 (-1)%Q))
                (SileroVADProcessor.sample_rate
                   (VADService.vad_processor (VADService.init Fixtures.scorer)))
              = Raised)
    by (vm_compute; reflexivity).
  split; [exact H|].
  destruct (scorer_failure_fail_open
              (VADService.init Fixtures.scorer) (replicate 512 (-1)%Q)
              Fixtures.scorer eq_refl) as [Heq _];
    [vm_compute; lia | exact H |].
  rewrite Heq. reflexivity.
Defined.

(** C7: when the decoder raises on a chunk or returns no sample, handling
    the chunk leaves the session object as it was (resampler buffer, frame
    buffer and hysteresis state included), leaves the registry as it was, and
    sends nothing. *)
Theorem decode_failure_atomic
    (b64decode : string -> result bytes) (cs : ConnectionService.t)
    (now : float) (websocket : WebSocket) (session : AudioSession.t)
    (data : string) (opus_data : bytes) :
  ConnectionService.active_sessions cs !! websocket = Some session ->
  b64decode data = Ok opus_data ->
  (AudioService.opus_reader (AudioSession.audio_service session) opus_data = Raised
   \/ AudioService.opus_reader (AudioSession.audio_service session) opus_data = Ok []) ->
  AudioService.process_opus_chunk (AudioSession.audio_service session) opus_data
  = (AudioSession.audio_service session, None)
  /\ ConnectionService.audio_chunk_body b64decode session now data = (session, [])
  /\ ConnectionService.handle_audio_chunk b64decode cs now websocket data = (cs, []).
Proof.
  intros Hs Hb Hfail.
  assert (Hdec : AudioService.decode_opus (AudioSession.audio_service session) opus_data
                 = None).
  { unfold AudioService.decode_opus. destruct Hfail as [-> | ->]; reflexivity. }
  assert (Hp : AudioService.process_opus_chunk
                 (AudioSession.audio_service session) opus_data
               = (AudioSession.audio_service session, None)).
  { unfold AudioService.process_opus_chunk. now rewrite Hdec. }
  assert (Hbody : ConnectionService.audio_chunk_body b64decode session now data
                  = (session, [])).
  { unfold ConnectionService.audio_chunk_body. rewrite Hb, Hp.
    now destruct session. }
  split; [exact Hp|]. split; [exact Hbody|].
  unfold ConnectionService.handle_audio_chunk. rewrite Hs, Hbody.
  destruct cs as [sessions]. cbn [ConnectionService.active_sessions] in *.
  now rewrite (insert_id sessions websocket session Hs).
Qed.

Lemma decode_failure_atomic_witness :
  let cs := ConnectionService.connect Fixtures.reader Fixtures.scorer
              ConnectionService.init 1%positive in
  Fixtures.reader (String.list_byte_of_string "!abc") = Raised
  /\ ConnectionService.handle_audio_chunk Fixtures.b64decode cs 0%Q 1%positive "!abc"
     = (cs, []).
Proof.
  cbv zeta. split; [reflexivity|].
  apply (decode_failure_atomic Fixtures.b64decode
           (ConnectionService.connect Fixtures.reader Fixtures.scorer
              ConnectionService.init 1%positive)
           0%Q 1%positive Fixtures.session "!abc"
           (String.list_byte_of_string "!abc")).
  - apply lookup_insert_eq.
  - reflexivity.
  - left. reflexivity.
Defined.

(** ** Calls that only buffer *)

(** C10: when the frame buffer with the new samples appended still holds
    fewer than 512 samples, [process_audio] returns no event and confidence
    0.0 and keeps the processor, so the hysteresis state, it had; the scorer
    is not consulted: with any other scorer in its place, or none, the call
    returns the same result and leaves the same state.  The handler, which
    sends a confidence message only above 0.1, sends nothing for the chunk. *)
Theorem buffering_call_is_silent
    (b64decode : string -> result bytes) (session : AudioSession.t)
    (now : float) (data : string) (opus_data : bytes)
    (audio_service1 : AudioService.t) (audio_16k : list float) :
  let vad := AudioSession.vad_service session in
  b64decode data = Ok opus_data ->
  AudioService.process_opus_chunk (AudioSession.audio_service session) opus_data
  = (audio_service1, Some audio_16k) ->
  length (VADService.audio_buffer vad ++ audio_16k) < VADService.VAD_CHUNK_SIZE ->
  VADService.process_audio vad audio_16k
  = ({| VADService.vad_processor := VADService.vad_processor vad;
        VADService.audio_buffer := VADService.audio_buffer vad ++ audio_16k |},
     {| event := None; confidence := 0%Q |})
  /\ (forall m,
        VADService.process_audio (with_scorer m vad) audio_16k
        = (with_scorer m (fst (VADService.process_audio vad audio_16k)),
           snd (VADService.process_audio vad audio_16k)))
  /\ float_gt 0%Q (1#10)%Q = false
  /\ ConnectionService.audio_chunk_body b64decode session now data
     = ({| AudioSession.audio_service := audio_service1;
           AudioSession.vad_service :=
             {| VADService.vad_processor := VADService.vad_processor vad;
                VADService.audio_buffer := VADService.audio_buffer vad ++ audio_16k |} |},
        []).
Proof.
  intros vad Hb Hp Hlen.
  pose proof (process_audio_buffering vad audio_16k Hlen) as Hv.
  split; [exact Hv|].
  split; [intros m; rewrite Hv; now apply process_audio_buffering|].
  split; [reflexivity|].
  unfold ConnectionService.audio_chunk_body. rewrite Hb, Hp.
  fold vad. rewrite Hv. reflexivity.
Qed.

Lemma buffering_call_is_silent_witness :
  length (VADService.audio_buffer (AudioSession.vad_service Fixtures.session)
          ++ [(97#256)%Q; (98#256)%Q]) < VADService.VAD_CHUNK_SIZE
  /\ snd (ConnectionService.audio_chunk_body
            Fixtures.b64decode Fixtures.session 0%Q "abc") = [].
Proof.
  assert (H : length (VADService.audio_buffer
                        (AudioSession.vad_service Fixtures.session)
                      ++ [(97#256)%Q; (98#256)%Q]) < VADService.VAD_CHUNK_SIZE)
    by (vm_compute; lia).
  split; [exact H|].
  destruct (buffering_call_is_silent Fixtures.b64decode Fixtures.session 0%Q
              "abc" (String.list_byte_of_string "abc")
              (AudioService.set_audio_buffer
                 (AudioSession.audio_service Fixtures.session)
                 [(98#256)%Q; (99#256)%Q])
              [(97#256)%Q; (98#256)%Q] eq_refl)
    as (_ & _ & _ & Hbody); [vm_compute; reflexivity | exact H |].
  rewrite Hbody. reflexivity.
Defined.

(** ** Health endpoints *)

(** The registry the health endpoints read is never written by the
    websocket endpoint. *)
Lemma ws_run_health
    (sphn_reader : AudioService.OpusStreamReader)
    (silero_vad : SileroVADProcessor.Model)
    (b64decode : string -> result bytes) (actions : list Api.ws_action) :
  forall app,
    Api.health_connection_service
      (Api.ws_run sphn_reader silero_vad b64decode app actions)
    = Api.health_connection_service app.
Proof.
  unfold Api.ws_run.
  induction actions as [|a rest IH]; intros app; [reflexivity|].
  cbn [foldl]. rewrite IH. now destruct a.
Qed.

(** C8 (the code departs from the claim): after one client has connected
    there is one live session in the registry of the websocket endpoint, and
    both health endpoints report [active_connections = 0]; they report 0
    after any sequence of connects, chunks, resets and disconnects, because
    api/health.py builds a [ConnectionService] of its own. *)
Theorem health_count_ignores_live_sessions
    (sphn_reader : AudioService.OpusStreamReader)
    (silero_vad : SileroVADProcessor.Model)
    (b64decode : string -> result bytes) :
  (let app := Api.ws_run sphn_reader silero_vad b64decode Api.init
                [Api.Connect 1%positive] in
   Api.live_sessions app = 1
   /\ Api.active_connections (Api.health_check app) = 0
   /\ Api.active_connections (Api.root app) = 0)
  /\ forall actions,
       let app := Api.ws_run sphn_reader silero_vad b64decode Api.init actions in
       Api.active_connections (Api.health_check app) = 0
       /\ Api.active_connections (Api.root app) = 0.
Proof.
  split.
  - cbv zeta. split; [|split; reflexivity].
    unfold Api.live_sessions, ConnectionService.connection_count.
    cbn. rewrite insert_empty. apply map_size_singleton.
  - intros actions app. subst app.
    unfold Api.health_check, Api.root. cbn [Api.active_connections].
    rewrite ws_run_health. split; reflexivity.
Qed.

(** * Further properties of the pipeline *)

(** ** Resampler: what one call returns and keeps *)

Lemma lookup_map_seq {A} (f : nat -> A) (count : nat) :
  forall start k,
    map f (seq start count) !! k
    = if k <? count then Some (f (start + k)) else None.
Proof.
  induction count as [|count IH]; intros start k.
  - now destruct k.
  - destruct k as [|k]; cbn [seq map].
    + cbn. now rewrite Nat.add_0_r.
    + change ((f start :: map f (seq (S start) count)) !! S k)
        with (map f (seq (S start) count) !! k).
      rewrite IH. change (S k <? S count) with (k <? count).
      now rewrite Nat.add_succ_r.
Qed.

Lemma arange_1_5_lookup (n k : nat) :
  k < (2 * n + 2) / 3 -> arange_1_5 n !! k = Some ((3 * k) / 2).
Proof.
  intros Hk. unfold arange_1_5. rewrite lookup_map_seq.
  destruct (Nat.ltb_spec k ((2 * n + 2) / 3)); [reflexivity | lia].
Qed.

Lemma arange_1_5_last (n : nat) :
  3 <= n -> last (arange_1_5 n) = Some ((3 * ((2 * n + 2) / 3 - 1)) / 2).
Proof.
  intros Hn.
  assert (Hc : 1 <= (2 * n + 2) / 3)
    by (apply Nat.div_le_lower_bound; lia).
  rewrite last_lookup.
  replace (length (arange_1_5 n)) with ((2 * n + 2) / 3)
    by (unfold arange_1_5; now rewrite length_map, length_seq).
  rewrite arange_1_5_lookup by lia.
  now replace (Nat.pred ((2 * n + 2) / 3)) with ((2 * n + 2) / 3 - 1) by lia.
Qed.

Lemma fancy_index_lookup {A} (a : list A) (indices : list nat) :
  (forall i, In i indices -> i < length a) ->
  forall k, fancy_index a indices !! k = indices !! k ≫= (fun i => a !! i).
Proof.
  unfold fancy_index. induction indices as [|i rest IH]; intros Hin k.
  - reflexivity.
  - destruct (lookup_lt_is_Some_2 a i) as [x Hx].
    + apply Hin. now left.
    + simpl. rewrite Hx. destruct k as [|k].
      * simpl. now rewrite Hx.
      * simpl. apply IH. intros j Hj. apply Hin. now right.
Qed.

(** The last index the resampler reads is one or two places before the end
    of the buffer. *)
Lemma last_used_idx_bounds (n : nat) :
  3 <= n ->
  n - 2 <= (3 * ((2 * n + 2) / 3 - 1)) / 2 < n.
Proof.
  intros Hn.
  pose proof (Nat.div_mod_eq (2 * n + 2) 3) as Hdm.
  pose proof (Nat.mod_upper_bound (2 * n + 2) 3) as Hm.
  set (c := (2 * n + 2) / 3) in *. set (r := (2 * n + 2) mod 3) in *.
  pose proof (Nat.div_mod_eq (3 * (c - 1)) 2) as Hdm2.
  pose proof (Nat.mod_upper_bound (3 * (c - 1)) 2) as Hm2.
  set (q := (3 * (c - 1)) / 2) in *. lia.
Qed.

(** X1: a call that resamples returns, as its [k]-th sample, the sample at
    position [3k/2] (rounded down) of the buffer with the new chunk appended,
    for each [k] below [ceil(2n/3)]: positions 0, 1, 3, 4, 6, 7, ... *)
Theorem resample_picks_positions
    (self : AudioService.t) (audio_24k : list float) (k : nat) :
  let buffer := AudioService.audio_buffer self ++ audio_24k in
  3 <= length buffer ->
  k < (2 * length buffer + 2) / 3 ->
  snd (AudioService.resample_24k_to_16k self audio_24k) !! k
  = buffer !! ((3 * k) / 2)
  /\ is_Some (buffer !! ((3 * k) / 2)).
Proof.
  intros buffer Hn Hk. unfold AudioService.resample_24k_to_16k. fold buffer.
  destruct (Nat.leb_spec 3 (length buffer)) as [_|Hlt]; [|lia].
  cbn [snd].
  rewrite fancy_index_lookup by (intros i Hi; now apply arange_1_5_lt).
  rewrite (arange_1_5_lookup _ _ Hk). split; [reflexivity|].
  apply lookup_lt_is_Some_2, arange_1_5_lt.
  apply (list_elem_of_In _ _), list_elem_of_lookup. exists k.
  now apply arange_1_5_lookup.
Qed.

Lemma resample_picks_positions_witness :
  snd (AudioService.resample_24k_to_16k
         (AudioService.init Fixtures.reader) [10; 11; 12; 13; 14]%Q) !! 2
  = Some 13%Q.
Proof.
  destruct (resample_picks_positions (AudioService.init Fixtures.reader)
              [10; 11; 12; 13; 14]%Q 2) as [H _];
    [vm_compute; lia | vm_compute; lia | exact H].
Defined.

(** X2: whatever it is given, a call leaves at most two samples in the
    resampler buffer; a call that resamples leaves one or two. *)
Theorem resample_buffer_bounded (self : AudioService.t) (audio_24k : list float) :
  let self' := fst (AudioService.resample_24k_to_16k self audio_24k) in
  length (AudioService.audio_buffer self') <= 2
  /\ (3 <= length (AudioService.audio_buffer self ++ audio_24k) ->
      1 <= length (AudioService.audio_buffer self')).
Proof.
  cbv zeta. unfold AudioService.resample_24k_to_16k.
  set (buffer := AudioService.audio_buffer self ++ audio_24k).
  destruct (Nat.leb_spec 3 (length buffer)) as [Hn|Hlt].
  - cbn [fst AudioService.audio_buffer AudioService.set_audio_buffer].
    rewrite (arange_1_5_last _ Hn). cbn [default]. unfold id.
    rewrite length_drop.
    pose proof (last_used_idx_bounds _ Hn). lia.
  - cbn [fst AudioService.audio_buffer AudioService.set_audio_buffer]. lia.
Qed.

(** X3: the sample a resampling call returns last is the sample the next
    resampling call returns first: the kept remainder starts with it. *)
Theorem resample_repeats_last_sample
    (self : AudioService.t) (chunk1 chunk2 : list float) :
  let self1 := fst (AudioService.resample_24k_to_16k self chunk1) in
  let out1 := snd (AudioService.resample_24k_to_16k self chunk1) in
  let out2 := snd (AudioService.resample_24k_to_16k self1 chunk2) in
  3 <= length (AudioService.audio_buffer self ++ chunk1) ->
  3 <= length (AudioService.audio_buffer self1 ++ chunk2) ->
  is_Some (last out1)
  /\ head (AudioService.audio_buffer self1) = last out1
  /\ head out2 = last out1.
Proof.
  intros self1 out1 out2 Hn1 Hn2.
  set (buffer := AudioService.audio_buffer self ++ chunk1) in *.
  set (idx := (3 * ((2 * length buffer + 2) / 3 - 1)) / 2).
  pose proof (last_used_idx_bounds _ Hn1) as Hidx. fold idx in Hidx.
  assert (Hc : 1 <= (2 * length buffer + 2) / 3)
    by (apply Nat.div_le_lower_bound; lia).
  assert (Hbuf1 : AudioService.audio_buffer self1 = drop idx buffer).
  { subst self1. unfold AudioService.resample_24k_to_16k. fold buffer.
    destruct (Nat.leb_spec 3 (length buffer)) as [_|Hlt]; [|lia].
    cbn [fst AudioService.audio_buffer AudioService.set_audio_buffer].
    now rewrite (arange_1_5_last _ Hn1). }
  assert (Hlast : last out1 = buffer !! idx).
  { rewrite last_lookup. subst out1.
    rewrite (resample_output_length self chunk1 Hn1). fold buffer.
    destruct (resample_picks_positions self chunk1
                (Nat.pred ((2 * length buffer + 2) / 3)) Hn1) as [Hk _].
    { fold buffer. lia. }
    rewrite Hk. fold buffer. subst idx.
    now replace (Nat.pred ((2 * length buffer + 2) / 3))
      with ((2 * length buffer + 2) / 3 - 1) by lia. }
  assert (Hhead : head (AudioService.audio_buffer self1) = buffer !! idx).
  { rewrite Hbuf1, head_lookup, lookup_drop. now rewrite Nat.add_0_r. }
  split; [rewrite Hlast; apply lookup_lt_is_Some_2; lia|].
  split; [now rewrite Hhead, Hlast|].
  rewrite Hlast, <- Hhead.
  destruct (resample_picks_positions self1 chunk2 0 Hn2) as [H0 _].
  { apply Nat.div_le_lower_bound; lia. }
  subst out2. rewrite !head_lookup, H0.
  change (3 * 0 / 2) with 0.
  apply lookup_app_l. rewrite Hbuf1, length_drop. lia.
Qed.

Lemma resample_repeats_last_sample_witness :
  let fresh := AudioService.init Fixtures.reader in
  let self1 := fst (AudioService.resample_24k_to_16k fresh [1; 2; 3]%Q) in
  3 <= length (AudioService.audio_buffer self1 ++ [4]%Q)
  /\ head (snd (AudioService.resample_24k_to_16k self1 [4]%Q))
     = last (snd (AudioService.resample_24k_to_16k fresh [1; 2; 3]%Q)).
Proof.
  cbv zeta.
  assert (H : 3 <= length (AudioService.audio_buffer
                             (fst (AudioService.resample_24k_to_16k
                                     (AudioService.init Fixtures.reader)
                                     [1; 2; 3]%Q)) ++ [4]%Q))
    by (vm_compute; lia).
  split; [exact H|].
  apply (resample_repeats_last_sample (AudioService.init Fixtures.reader)
           [1; 2; 3]%Q [4]%Q); [vm_compute; lia | exact H].
Defined.

(** X4: [process_opus_chunk] returns [None] in two situations only: the
    decoder raised or returned no sample, and the service is untouched; or
    fewer than three samples are buffered once the decoded ones are appended,
    and they are all kept.  In every other case it returns a non-empty array,
    the one [resample_24k_to_16k] made of the decoded samples. *)
Theorem process_opus_chunk_outcome (self : AudioService.t) (opus_data : bytes) :
  match AudioService.process_opus_chunk self opus_data with
  | (self', Some audio_16k) =>
      audio_16k <> []
      /\ exists pcm,
           AudioService.opus_reader self opus_data = Ok pcm
           /\ pcm <> []
           /\ 3 <= length (AudioService.audio_buffer self ++ pcm)
           /\ AudioService.resample_24k_to_16k self pcm = (self', audio_16k)
  | (self', None) =>
      (self' = self
       /\ (AudioService.opus_reader self opus_data = Raised
           \/ AudioService.opus_reader self opus_data = Ok []))
      \/ (exists pcm,
             AudioService.opus_reader self opus_data = Ok pcm
             /\ pcm <> []
             /\ length (AudioService.audio_buffer self ++ pcm) < 3
             /\ AudioService.audio_buffer self'
                = AudioService.audio_buffer self ++ pcm)
  end.
Proof.
  unfold AudioService.process_opus_chunk, AudioService.decode_opus.
  destruct (AudioService.opus_reader self opus_data) as [pcm|] eqn:Hr;
    [|left; auto].
  destruct pcm as [|x pcm]; [left; auto|].
  cbn [length Nat.ltb Nat.leb].
  destruct (Nat.leb_spec 3 (length (AudioService.audio_buffer self ++ x :: pcm)))
    as [Hn|Hlt].
  - pose proof (resample_output_length self (x :: pcm) Hn) as Hlen.
    destruct (AudioService.resample_24k_to_16k self (x :: pcm))
      as [self' out] eqn:Hres.
    cbn [snd] in Hlen.
    assert (Hpos : 1 <= length out).
    { rewrite Hlen. apply Nat.div_le_lower_bound; lia. }
    destruct out as [|y out]; [cbn in Hpos; lia|].
    cbn [length Nat.ltb Nat.leb]. split; [discriminate|].
    exists (x :: pcm). split; [reflexivity|]. split; [discriminate|].
    split; [exact Hn | exact Hres].
  - unfold AudioService.resample_24k_to_16k.
    destruct (Nat.leb_spec 3 (length (AudioService.audio_buffer self ++ x :: pcm)))
      as [Hn|_]; [lia|].
    cbn [length Nat.ltb Nat.leb]. right.
    exists (x :: pcm). split; [reflexivity|]. split; [discriminate|].
    split; [exact Hlt | reflexivity].
Qed.

(** ** Hysteresis: what the events mean *)

Section HysteresisMore.

Import SileroVADProcessor.

(** An update writes the three state fields only. *)
Lemma apply_hysteresis_configuration (p : t) (c : float) (n : Z) :
  let p' := fst (_apply_hysteresis p c n) in
  speech_threshold p' = speech_threshold p
  /\ silence_threshold p' = silence_threshold p
  /\ min_speech_samples p' = min_speech_samples p
  /\ min_silence_samples p' = min_silence_samples p.
Proof.
  cbv zeta. unfold _apply_hysteresis.
  repeat match goal with
         | |- context [if ?b then _ else _] => destruct b
         end; repeat split; reflexivity.
Qed.

(** X5: an update returns [speech_start] only for a confidence above the
    speech threshold and with the speech run, this frame included, at or
    above the minimum; it returns [speech_end] only for a confidence below
    the silence threshold and with the silence run at or above its minimum.
    The opposite run is zero in both cases. *)
Theorem hysteresis_event_conditions (p : t) (c : float) (n : Z) :
  match _apply_hysteresis p c n with
  | (p', Some speech_start) =>
      (speech_threshold p < c)%Q
      /\ speech_frames p' = (speech_frames p + n)%Z
      /\ (min_speech_samples p <= inject_Z (speech_frames p'))%Q
      /\ silence_frames p' = 0%Z
  | (p', Some speech_end) =>
      (c < silence_threshold p)%Q
      /\ silence_frames p' = (silence_frames p + n)%Z
      /\ (min_silence_samples p <= inject_Z (silence_frames p'))%Q
      /\ speech_frames p' = 0%Z
  | (_, None) => True
  end.
Proof.
  unfold _apply_hysteresis.
  destruct (float_gt c (speech_threshold p)) eqn:Hgt.
  - apply float_gt_spec in Hgt.
    cbn [is_speaking set_state speech_frames silence_frames].
    destruct (negb (is_speaking p)); cbn [andb]; [|exact I].
    destruct (int_ge_float _ _) eqn:Hge; [|exact I].
    apply int_ge_float_spec in Hge. now repeat split.
  - destruct (float_lt c (silence_threshold p)) eqn:Hlt; [|exact I].
    apply float_lt_spec in Hlt.
    cbn [is_speaking set_state speech_frames silence_frames].
    destruct (is_speaking p); cbn [andb]; [|exact I].
    destruct (int_ge_float _ _) eqn:Hge; [|exact I].
    apply int_ge_float_spec in Hge. now repeat split.
Qed.

Lemma apply_hysteresis_exclusive (p : t) (c : float) (n : Z) :
  speech_frames p = 0%Z \/ silence_frames p = 0%Z ->
  speech_frames (fst (_apply_hysteresis p c n)) = 0%Z
  \/ silence_frames (fst (_apply_hysteresis p c n)) = 0%Z.
Proof.
  intros H. unfold _apply_hysteresis.
  repeat match goal with
         | |- context [if ?b then _ else _] => destruct b
         end; cbn; auto.
Qed.

Lemma hysteresis_run_exclusive (frames : list (float * Z)) :
  forall p,
    speech_frames p = 0%Z \/ silence_frames p = 0%Z ->
    speech_frames (fst (hysteresis_run p frames)) = 0%Z
    \/ silence_frames (fst (hysteresis_run p frames)) = 0%Z.
Proof.
  induction frames as [|[c n] rest IH]; intros p H; [exact H|].
  cbn [hysteresis_run].
  pose proof (apply_hysteresis_exclusive p c n H) as H1.
  destruct (_apply_hysteresis p c n) as [p1 e]. cbn [fst] in H1.
  specialize (IH p1 H1).
  now destruct (hysteresis_run p1 rest) as [p2 es].
Qed.

(** X6: from a freshly built processor, after any frames, the speech run
    and the silence run are never both non-zero. *)
Theorem hysteresis_runs_exclusive
    (loaded : Model) (rate : Z) (speech silence : float) (speech_ms silence_ms : Z)
    (frames : list (float * Z)) :
  let p := fst (hysteresis_run
                  (init loaded rate speech silence speech_ms silence_ms) frames) in
  speech_frames p = 0%Z \/ silence_frames p = 0%Z.
Proof. apply hysteresis_run_exclusive. now left. Qed.

Lemma hysteresis_run_app (frames1 frames2 : list (float * Z)) :
  forall p,
    hysteresis_run p (frames1 ++ frames2)
    = let '(p1, es1) := hysteresis_run p frames1 in
      let '(p2, es2) := hysteresis_run p1 frames2 in
      (p2, es1 ++ es2).
Proof.
  induction frames1 as [|[c n] rest IH]; intros p.
  - cbn. now destruct (hysteresis_run p frames2).
  - cbn [app hysteresis_run].
    destruct (_apply_hysteresis p c n) as [p1 e]. rewrite IH.
    destruct (hysteresis_run p1 rest) as [p2 es].
    now destruct (hysteresis_run p2 frames2).
Qed.

Lemma dead_zone_transparent (speech silence : float) (frames : list (float * Z)) :
  forall p,
    speech_threshold p = speech ->
    silence_threshold p = silence ->
    fst (hysteresis_run p frames)
    = fst (hysteresis_run p (List.filter (outside_dead_zone speech silence) frames))
    /\ emitted (snd (hysteresis_run p frames))
       = emitted (snd (hysteresis_run p
                         (List.filter (outside_dead_zone speech silence) frames))).
Proof.
  induction frames as [|[c n] rest IH]; intros p Hsp Hsil; [now split|].
  cbn [List.filter].
  destruct (outside_dead_zone speech silence (c, n)) eqn:Hout.
  - cbn [hysteresis_run].
    destruct (apply_hysteresis_configuration p c n) as (H1 & H2 & _).
    destruct (_apply_hysteresis p c n) as [p1 e]. cbn [fst] in H1, H2.
    destruct (IH p1) as [IHst IHev]; [congruence | congruence |].
    destruct (hysteresis_run p1 rest) as [p2 es].
    destruct (hysteresis_run p1 _) as [p2' es']. cbn [fst snd] in *.
    split; [exact IHst|].
    unfold emitted in *. destruct e; cbn; now rewrite ?IHev.
  - unfold outside_dead_zone in Hout. cbn [fst] in Hout.
    apply orb_false_elim in Hout. destruct Hout as [Hgt Hlt].
    cbn [hysteresis_run].
    assert (Hstep : _apply_hysteresis p c n = (p, None)).
    { unfold _apply_hysteresis. now rewrite Hsp, Hsil, Hgt, Hlt. }
    rewrite Hstep.
    destruct (IH p Hsp Hsil) as [IHst IHev].
    destruct (hysteresis_run p rest) as [p2 es]. cbn [fst snd] in *.
    split; [exact IHst|]. exact IHev.
Qed.

(** X7: frames in the dead zone are transparent: taking them out of a run
    changes neither the state the run ends in nor the events it emits, so a
    speech or silence run continues across them. *)
Theorem hysteresis_dead_zone_transparent (p : t) (frames : list (float * Z)) :
  let kept :=
    List.filter
      (outside_dead_zone (speech_threshold p) (silence_threshold p)) frames in
  fst (hysteresis_run p frames) = fst (hysteresis_run p kept)
  /\ emitted (snd (hysteresis_run p frames))
     = emitted (snd (hysteresis_run p kept)).
Proof. now apply dead_zone_transparent. Qed.

Example ex_dead_zone_bridges :
  snd (hysteresis_run Fixtures.processor
         [((9#10)%Q, 1024%Z); ((2#5)%Q, 512%Z); ((9#10)%Q, 576%Z)])
  = [None; None; Some speech_start].
Proof. vm_compute. reflexivity. Qed.

End HysteresisMore.

Section DebounceMore.

Import SileroVADProcessor.

(** Below the silence threshold while speaking: the silence run grows, and
    the update fires exactly when it has reached the minimum. *)
Lemma silence_step_speaking (p : t) (c : float) (n : Z) :
  is_speaking p = true ->
  (silence_threshold p <= speech_threshold p)%Q ->
  (c < silence_threshold p)%Q ->
  _apply_hysteresis p c n
  = if int_ge_float (silence_frames p + n) (min_silence_samples p)
    then (set_state p false 0 (silence_frames p + n), Some speech_end)
    else (set_state p true 0 (silence_frames p + n), None).
Proof.
  intros Hs Hth Hc. unfold _apply_hysteresis.
  assert (Hgt : float_gt c (speech_threshold p) = false).
  { apply not_true_iff_false. intros H. apply float_gt_spec in H.
    apply (Qlt_irrefl c). eapply Qlt_le_trans; [exact Hc|].
    eapply Qle_trans; [exact Hth|]. now apply Qlt_le_weak. }
  rewrite Hgt. apply float_lt_spec in Hc. rewrite Hc.
  cbn [is_speaking set_state speech_frames silence_frames]. rewrite Hs.
  cbn [andb].
  change (min_silence_samples (set_state p true 0 (silence_frames p + n)))
    with (min_silence_samples p).
  now destruct (int_ge_float _ _).
Qed.

(** Below the silence threshold while not speaking: no event. *)
Lemma silence_step_silent (p : t) (c : float) (n : Z) :
  is_speaking p = false ->
  (silence_threshold p <= speech_threshold p)%Q ->
  (c < silence_threshold p)%Q ->
  _apply_hysteresis p c n = (set_state p false 0 (silence_frames p + n), None).
Proof.
  intros Hs Hth Hc. unfold _apply_hysteresis.
  assert (Hgt : float_gt c (speech_threshold p) = false).
  { apply not_true_iff_false. intros H. apply float_gt_spec in H.
    apply (Qlt_irrefl c). eapply Qlt_le_trans; [exact Hc|].
    eapply Qle_trans; [exact Hth|]. now apply Qlt_le_weak. }
  rewrite Hgt. apply float_lt_spec in Hc. rewrite Hc.
  cbn [is_speaking set_state]. now rewrite Hs.
Qed.

Lemma silence_run_silent (c : float) (sizes : list Z) :
  forall p,
    is_speaking p = false ->
    (silence_threshold p <= speech_threshold p)%Q ->
    (c < silence_threshold p)%Q ->
    snd (hysteresis_run p (sustained c sizes)) = replicate (length sizes) None.
Proof.
  induction sizes as [|n rest IH]; intros p Hs Hth Hc; [reflexivity|].
  cbn [sustained map hysteresis_run]. fold (sustained c rest).
  rewrite (silence_step_silent p c n Hs Hth Hc).
  specialize (IH (set_state p false 0 (silence_frames p + n)) eq_refl Hth Hc).
  destruct (hysteresis_run _ (sustained c rest)) as [p2 es].
  cbn [snd] in *. now rewrite IH.
Qed.

(** X8: the end of speech is debounced like its start.  While speaking,
    with the silence run below the minimum [M], frames all scored below the
    silence threshold whose sample counts bring the run to [M] or more give
    one [speech_end] and nothing else: no event along the prefix on which the
    run stays below [M], [speech_end] at the frame where it reaches [M], no
    event after. *)
Theorem hysteresis_end_debounce (p : t) (c : float) (M : Z) (sizes : list Z) :
  is_speaking p = true ->
  (silence_threshold p <= speech_threshold p)%Q ->
  (c < silence_threshold p)%Q ->
  (min_silence_samples p == inject_Z M)%Q ->
  (silence_frames p < M)%Z ->
  (M <= silence_frames p + total_samples sizes)%Z ->
  exists pre n post,
    sizes = pre ++ n :: post
    /\ (forall k, k <= length pre ->
                  (silence_frames p + total_samples (take k pre) < M)%Z)
    /\ (M <= silence_frames p + total_samples pre + n)%Z
    /\ snd (hysteresis_run p (sustained c sizes))
       = replicate (length pre) None
         ++ Some speech_end :: replicate (length post) None.
Proof.
  revert p. induction sizes as [|n rest IH]; intros p Hs Hth Hc Hmin Hlt Hsum.
  - cbn in Hsum. lia.
  - cbn [total_samples foldr] in Hsum. fold (total_samples rest) in Hsum.
    cbn [sustained map hysteresis_run]. fold (sustained c rest).
    rewrite (silence_step_speaking p c n Hs Hth Hc).
    destruct (int_ge_float (silence_frames p + n) (min_silence_samples p)) eqn:Hge.
    + apply int_ge_float_spec in Hge. rewrite Hmin in Hge.
      rewrite <- Zle_Qle in Hge.
      exists [], n, rest. split; [reflexivity|].
      split; [intros k _; rewrite take_nil; cbn; lia|].
      split; [cbn; lia|].
      pose proof (silence_run_silent c rest
                    (set_state p false 0 (silence_frames p + n)) eq_refl Hth Hc)
        as Hrest.
      destruct (hysteresis_run _ (sustained c rest)) as [p2 es].
      cbn [snd] in *. now rewrite Hrest.
    + assert (Hlt' : (silence_frames p + n < M)%Z).
      { destruct (Z.lt_ge_cases (silence_frames p + n) M) as [|Hle]; [assumption|].
        rewrite Zle_Qle, <- Hmin in Hle.
        apply int_ge_float_spec in Hle. congruence. }
      destruct (IH (set_state p true 0 (silence_frames p + n)) eq_refl Hth Hc Hmin Hlt')
        as (pre & m & post & -> & Hpre & Hreach & Hev).
      { cbn [silence_frames set_state]. lia. }
      cbn [silence_frames set_state] in Hpre, Hreach.
      exists (n :: pre), m, post. split; [reflexivity|].
      split.
      { intros [|k] Hk.
        - cbn. lia.
        - cbn [take total_samples foldr length] in *.
          fold (total_samples (take k pre)).
          specialize (Hpre k). lia. }
      split.
      { cbn [total_samples foldr]. fold (total_samples pre). lia. }
      destruct (hysteresis_run _ (sustained c (pre ++ m :: post))) as [p2 es].
      cbn [snd] in *. now rewrite Hev.
Qed.

Lemma hysteresis_end_debounce_witness :
  let speaking := set_state Fixtures.processor true 0 0 in
  (4800 <= silence_frames speaking + total_samples (replicate 10 512%Z))%Z
  /\ emitted (snd (hysteresis_run speaking
                     (sustained (1#10)%Q (replicate 10 512%Z))))
     = [speech_end].
Proof.
  cbv zeta.
  assert (H : (4800 <= silence_frames (set_state Fixtures.processor true 0 0)
                       + total_samples (replicate 10 512%Z))%Z)
    by (vm_compute; discriminate).
  split; [exact H|].
  destruct (hysteresis_end_debounce (set_state Fixtures.processor true 0 0)
              (1#10)%Q 4800%Z (replicate 10 512%Z))
    as (pre & n & post & _ & _ & _ & Hev);
    [reflexivity | vm_compute; discriminate | reflexivity
     | vm_compute; reflexivity | reflexivity | exact H |].
  rewrite Hev. unfold emitted. clear Hev.
  induction pre as [|x pre IH]; cbn.
  - f_equal. induction post as [|y post IHp]; [reflexivity | exact IHp].
  - exact IH.
Defined.

(** A speech run that stays below the minimum: no event, still silent, the
    run has grown by the samples of the frames. *)
Lemma speech_run_below_min (c : float) (M : Z) (sizes : list Z) :
  forall p,
    is_speaking p = false ->
    (speech_threshold p < c)%Q ->
    (min_speech_samples p == inject_Z M)%Q ->
    Forall (fun n => (0 <= n)%Z) sizes ->
    (speech_frames p + total_samples sizes < M)%Z ->
    let p' := fst (hysteresis_run p (sustained c sizes)) in
    snd (hysteresis_run p (sustained c sizes)) = replicate (length sizes) None
    /\ is_speaking p' = false
    /\ speech_threshold p' = speech_threshold p
    /\ silence_threshold p' = silence_threshold p
    /\ min_speech_samples p' = min_speech_samples p.
Proof.
  induction sizes as [|n rest IH]; intros p Hs Hc Hmin Hpos Hsum.
  - cbn. now repeat split.
  - inversion Hpos as [|? ? Hn Hrest]; subst.
    cbn [total_samples foldr] in Hsum. fold (total_samples rest) in Hsum.
    assert (Hrest_pos : (0 <= total_samples rest)%Z).
    { clear -Hrest. induction Hrest; cbn; [lia|].
      fold (total_samples l). lia. }
    cbn [sustained map hysteresis_run]. fold (sustained c rest).
    rewrite (speech_step_silent p c n Hs Hc).
    destruct (int_ge_float (speech_frames p + n) (min_speech_samples p)) eqn:Hge.
    { apply int_ge_float_spec in Hge. rewrite Hmin in Hge.
      rewrite <- Zle_Qle in Hge. lia. }
    specialize (IH (set_state p false (speech_frames p + n) 0) eq_refl Hc Hmin Hrest).
    cbn [speech_frames set_state] in IH.
    destruct IH as (Hev & Hsp & H1 & H2 & H3); [lia|].
    destruct (hysteresis_run _ (sustained c rest)) as [p2 es].
    cbn [fst snd] in *. rewrite Hev. now repeat split.
Qed.

(** X9: speech interrupted before the minimum duration starts nothing.
    From the silent state with no speech run, speech frames adding up to less
    than the minimum [M], one frame below the silence threshold, then again
    speech frames adding up to less than [M]: no event at all, however large
    the two speech runs are together. *)
Theorem interrupted_speech_starts_nothing
    (p : t) (c_hi c_lo : float) (M gap : Z) (before after : list Z) :
  is_speaking p = false ->
  speech_frames p = 0%Z ->
  (silence_threshold p <= speech_threshold p)%Q ->
  (speech_threshold p < c_hi)%Q ->
  (c_lo < silence_threshold p)%Q ->
  (min_speech_samples p == inject_Z M)%Q ->
  Forall (fun n => (0 <= n)%Z) before ->
  Forall (fun n => (0 <= n)%Z) after ->
  (total_samples before < M)%Z ->
  (total_samples after < M)%Z ->
  let frames := sustained c_hi before ++ (c_lo, gap) :: sustained c_hi after in
  emitted (snd (hysteresis_run p frames)) = []
  /\ is_speaking (fst (hysteresis_run p frames)) = false.
Proof.
  intros Hs Hsp Hth Hhi Hlo Hmin Hb Ha Htb Hta frames. subst frames.
  rewrite hysteresis_run_app.
  destruct (speech_run_below_min c_hi M before p Hs Hhi Hmin Hb)
    as (Hev1 & Hs1 & Hsp1 & Hsil1 & Hmin1); [lia|].
  destruct (hysteresis_run p (sustained c_hi before)) as [p1 es1].
  cbn [fst snd] in *.
  cbn [hysteresis_run].
  rewrite (silence_step_silent p1 c_lo gap Hs1) by (rewrite ?Hsp1, ?Hsil1; assumption).
  set (p2 := set_state p1 false 0 (silence_frames p1 + gap)).
  destruct (speech_run_below_min c_hi M after p2 eq_refl)
    as (Hev2 & Hs2 & _).
  { subst p2. cbn [speech_threshold set_state]. now rewrite Hsp1. }
  { subst p2.
    change (min_speech_samples (set_state p1 false 0 (silence_frames p1 + gap)))
      with (min_speech_samples p1). now rewrite Hmin1. }
  { exact Ha. }
  { subst p2. cbn [speech_frames set_state]. lia. }
  destruct (hysteresis_run p2 (sustained c_hi after)) as [p3 es3].
  cbn [fst snd] in *. split; [|exact Hs2].
  rewrite Hev1, Hev2. unfold emitted. clear.
  induction (length before) as [|a IH]; cbn.
  - induction (length after) as [|b IHb]; [reflexivity | exact IHb].
  - exact IH.
Qed.

Lemma interrupted_speech_starts_nothing_witness :
  let frames := sustained (9#10)%Q [512; 512; 512]%Z
                ++ ((1#10)%Q, 512%Z) :: sustained (9#10)%Q [512; 512; 512]%Z in
  (total_samples [512; 512; 512]%Z < 1600)%Z
  /\ emitted (snd (hysteresis_run Fixtures.processor frames)) = [].
Proof.
  cbv zeta. split; [reflexivity|].
  apply (interrupted_speech_starts_nothing Fixtures.processor
           (9#10)%Q (1#10)%Q 1600%Z 512%Z [512; 512; 512]%Z [512; 512; 512]%Z);
    try reflexivity;
    try (vm_compute; discriminate);
    repeat constructor; discriminate.
Defined.

End DebounceMore.

(** ** Frame accumulation over several calls *)

Lemma process_audio_buffer_length (s : VADService.t) (audio_chunk : list float) :
  let n := length (VADService.audio_buffer s ++ audio_chunk) in
  length (VADService.audio_buffer (fst (VADService.process_audio s audio_chunk)))
  = if VADService.VAD_CHUNK_SIZE <=? n then n - VADService.VAD_CHUNK_SIZE else n.
Proof.
  cbv zeta. unfold VADService.process_audio.
  destruct (VADService.VAD_CHUNK_SIZE
            <=? length (VADService.audio_buffer s ++ audio_chunk)); [|reflexivity].
  destruct (SileroVADProcessor.process_audio_chunk _ _) as [p [[e c]|]];
    cbn [fst VADService.audio_buffer]; apply length_drop.
Qed.

Lemma process_audio_takes_front (s : VADService.t) (audio_chunk : list float) :
  VADService.VAD_CHUNK_SIZE <= length (VADService.audio_buffer s ++ audio_chunk) ->
  VADService.audio_buffer (fst (VADService.process_audio s audio_chunk))
  = drop VADService.VAD_CHUNK_SIZE (VADService.audio_buffer s ++ audio_chunk).
Proof.
  intros Hn. unfold VADService.process_audio.
  destruct (Nat.leb_spec VADService.VAD_CHUNK_SIZE
              (length (VADService.audio_buffer s ++ audio_chunk))) as [_|Hlt];
    [|lia].
  now destruct (SileroVADProcessor.process_audio_chunk _ _) as [p [[e c]|]].
Qed.

(** X10: chunks of at least 512 samples each build up a backlog, taken from
    the front in order.  After one call per chunk the buffer is the old
    buffer followed by all the chunks, with the first 512 samples per call
    removed; so its length is the old length plus, for every chunk, the number
    of its samples beyond 512. *)
Theorem vad_feed_backlog (s : VADService.t) (chunks : list (list float)) :
  Forall (fun c => VADService.VAD_CHUNK_SIZE <= length c) chunks ->
  VADService.audio_buffer (fst (vad_feed s chunks))
  = drop (VADService.VAD_CHUNK_SIZE * length chunks)
      (VADService.audio_buffer s ++ concat chunks)
  /\ length (VADService.audio_buffer (fst (vad_feed s chunks)))
     = length (VADService.audio_buffer s)
       + sum_list (map (fun c => length c - VADService.VAD_CHUNK_SIZE) chunks).
Proof.
  intros H. revert s. induction H as [|c rest Hc _ IH]; intros s.
  - cbn [vad_feed fst concat length map sum_list sum_list_with].
    rewrite Nat.mul_0_r, app_nil_r. cbn [drop]. split; [reflexivity | lia].
  - cbn [vad_feed map sum_list sum_list_with concat length].
    assert (Hn : VADService.VAD_CHUNK_SIZE
                 <= length (VADService.audio_buffer s ++ c))
      by (rewrite length_app; lia).
    pose proof (process_audio_takes_front s c Hn) as Hfront.
    destruct (VADService.process_audio s c) as [s1 r]. cbn [fst] in Hfront.
    destruct (IH s1) as [IHbuf IHlen]. destruct (vad_feed s1 rest) as [s2 rs].
    cbn [fst] in *. split.
    + rewrite IHbuf, Hfront, <- (drop_app_le _ _ _ Hn), drop_drop, <- app_assoc.
      f_equal. lia.
    + rewrite IHlen, Hfront, length_drop, length_app. unfold id. lia.
Qed.

Lemma vad_feed_backlog_witness :
  let chunks := replicate 3 (replicate 1024 0%Q) in
  Forall (fun c => VADService.VAD_CHUNK_SIZE <= length c) chunks
  /\ length (VADService.audio_buffer
               (fst (vad_feed (VADService.init Fixtures.scorer) chunks))) = 1536.
Proof.
  cbv zeta.
  assert (H : Forall (fun c => VADService.VAD_CHUNK_SIZE <= length c)
                (replicate 3 (replicate 1024 0%Q)))
    by (repeat constructor; vm_compute; lia).
  split; [exact H|].
  destruct (vad_feed_backlog (VADService.init Fixtures.scorer) _ H) as [_ Hlen].
  rewrite Hlen. reflexivity.
Defined.

(** X11: with fewer than 512 samples buffered and chunks of at most 512
    samples each, the buffer is back below 512 samples after the calls. *)
Theorem vad_feed_small_chunks (s : VADService.t) (chunks : list (list float)) :
  length (VADService.audio_buffer s) < VADService.VAD_CHUNK_SIZE ->
  Forall (fun c => length c <= VADService.VAD_CHUNK_SIZE) chunks ->
  length (VADService.audio_buffer (fst (vad_feed s chunks)))
  < VADService.VAD_CHUNK_SIZE.
Proof.
  intros Hs H. revert s Hs. induction H as [|c rest Hc _ IH]; intros s Hs.
  - exact Hs.
  - cbn [vad_feed].
    pose proof (process_audio_buffer_length s c) as Hlen. cbv zeta in Hlen.
    destruct (VADService.process_audio s c) as [s1 r]. cbn [fst] in Hlen.
    assert (Hs1 : length (VADService.audio_buffer s1) < VADService.VAD_CHUNK_SIZE).
    { rewrite Hlen, length_app.
      destruct (Nat.leb_spec VADService.VAD_CHUNK_SIZE
                  (length (VADService.audio_buffer s) + length c)); lia. }
    specialize (IH s1 Hs1). now destruct (vad_feed s1 rest) as [s2 rs].
Qed.

Lemma vad_feed_small_chunks_witness :
  let chunks := replicate 4 (replicate 320 0%Q) in
  Forall (fun c => length c <= VADService.VAD_CHUNK_SIZE) chunks
  /\ length (VADService.audio_buffer
               (fst (vad_feed (VADService.init Fixtures.scorer) chunks)))
     < VADService.VAD_CHUNK_SIZE.
Proof.
  cbv zeta.
  assert (H : Forall (fun c => length c <= VADService.VAD_CHUNK_SIZE)
                (replicate 4 (replicate 320 0%Q)))
    by (repeat constructor; vm_compute; lia).
  split; [exact H|].
  apply (vad_feed_small_chunks (VADService.init Fixtures.scorer) _);
    [vm_compute; lia | exact H].
Defined.

(** ** Sessions with the default settings *)

Section DefaultSession.

Import SileroVADProcessor.

Lemma int_ge_float_inject (n M : Z) (x : float) :
  (x == inject_Z M)%Q -> int_ge_float n x = (M <=? n)%Z.
Proof.
  intros Hx. unfold int_ge_float.
  destruct (Z.leb_spec M n) as [Hle|Hlt].
  - apply Qle_bool_iff. rewrite Hx. now rewrite <- Zle_Qle.
  - apply not_true_iff_false. intros H. apply Qle_bool_iff in H.
    rewrite Hx, <- Zle_Qle in H. lia.
Qed.

Lemma frame_aligned_init (loaded : Model) :
  frame_aligned (init loaded 16000 (1#2)%Q (3#10)%Q 150 400).
Proof.
  unfold frame_aligned. cbn [is_speaking speech_frames silence_frames init
                             speech_threshold silence_threshold].
  repeat split; try (vm_compute; reflexivity); try (vm_compute; discriminate).
Qed.

Lemma mod_512_step (x : Z) : (x mod 512 = 0 -> (x + 512) mod 512 = 0)%Z.
Proof.
  intros H. change (x + 512)%Z with (x + 1 * 512)%Z.
  now rewrite Z_mod_plus_full.
Qed.

Lemma mod_512_multiple (x : Z) : (x mod 512 = 0)%Z -> exists k, (x = 512 * k)%Z.
Proof.
  intros H. exists (x / 512)%Z.
  pose proof (Z.div_mod x 512) as Hdm. lia.
Qed.

Ltac close_aligned :=
  repeat split;
  try assumption; try reflexivity; try lia; try discriminate;
  try (apply mod_512_step; assumption);
  try (intros; lia); try (intros; discriminate).

Lemma frame_aligned_reset (p : t) : frame_aligned p -> frame_aligned (reset_state p).
Proof.
  unfold frame_aligned.
  intros (H1 & H2 & H3 & H4 & _). unfold reset_state.
  cbn [is_speaking speech_frames silence_frames set_state
       speech_threshold silence_threshold].
  close_aligned.
Qed.

(** One frame of 512 samples: the invariant is kept, and an event tells
    where the run stands. *)
Lemma frame_aligned_step (p : t) (c : float) :
  frame_aligned p ->
  let p' := fst (_apply_hysteresis p c 512) in
  frame_aligned p'
  /\ match snd (_apply_hysteresis p c 512) with
     | Some speech_start =>
         (1#2 < c)%Q /\ speech_frames p' = 2560%Z /\ is_speaking p' = true
     | Some speech_end =>
         (c < 3#10)%Q /\ silence_frames p' = 6656%Z /\ is_speaking p' = false
     | None => True
     end.
Proof.
  unfold frame_aligned.
  intros (H1 & H2 & H3 & H4 & H5 & H6 & H7 & H8 & H9 & H10).
  cbv zeta. unfold _apply_hysteresis.
  destruct (float_gt c (speech_threshold p)) eqn:Hgt.
  - apply float_gt_spec in Hgt. rewrite H3 in Hgt.
    cbn [is_speaking set_state speech_frames silence_frames].
    change (min_speech_samples (set_state p (is_speaking p) (speech_frames p + 512) 0))
      with (min_speech_samples p).
    rewrite (int_ge_float_inject _ 2400 _ H1).
    destruct (is_speaking p) eqn:Hs; cbn [negb andb fst snd];
      [|destruct (Z.leb_spec 2400 (speech_frames p + 512)) as [Hge|Hlt];
        cbn [fst snd]];
      cbn [is_speaking speech_frames silence_frames set_state
           speech_threshold silence_threshold].
    + split; [|exact I].
      close_aligned.
    + specialize (H9 eq_refl). destruct (mod_512_multiple _ H5) as [k Hk].
      assert (Hsp : (speech_frames p + 512 = 2560)%Z) by lia.
      split; [|now repeat split].
      close_aligned.
    + split; [|exact I].
      close_aligned.
  - destruct (float_lt c (silence_threshold p)) eqn:Hlt.
    + apply float_lt_spec in Hlt. rewrite H4 in Hlt.
      cbn [is_speaking set_state speech_frames silence_frames].
      change (min_silence_samples
                (set_state p (is_speaking p) 0 (silence_frames p + 512)))
        with (min_silence_samples p).
      rewrite (int_ge_float_inject _ 6400 _ H2).
      destruct (is_speaking p) eqn:Hs; cbn [andb fst snd];
        [destruct (Z.leb_spec 6400 (silence_frames p + 512)) as [Hge|Hlt'];
         cbn [fst snd]|];
        cbn [is_speaking speech_frames silence_frames set_state
             speech_threshold silence_threshold].
      * specialize (H10 eq_refl). destruct (mod_512_multiple _ H6) as [k Hk].
        assert (Hsil : (silence_frames p + 512 = 6656)%Z) by lia.
        split; [|now repeat split].
        close_aligned.
      * split; [|exact I].
        close_aligned.
      * split; [|exact I].
        close_aligned.
    + cbn [fst snd]. split; [|exact I].
      repeat split; assumption.
Qed.

(** A [process_audio] call either leaves the processor alone and reports
    nothing, or is one hysteresis update on a frame of 512 samples. *)
Lemma process_audio_cases (v : VADService.t) (audio_chunk : list float) :
  let v' := fst (VADService.process_audio v audio_chunk) in
  let r := snd (VADService.process_audio v audio_chunk) in
  (VADService.vad_processor v' = VADService.vad_processor v
   /\ r = {| event := None; confidence := 0%Q |})
  \/ _apply_hysteresis (VADService.vad_processor v) (confidence r) 512
     = (VADService.vad_processor v', event r).
Proof.
  cbv zeta. unfold VADService.process_audio.
  destruct (Nat.leb_spec VADService.VAD_CHUNK_SIZE
              (length (VADService.audio_buffer v ++ audio_chunk))) as [Hn|_];
    [|left; now split].
  unfold process_audio_chunk.
  destruct (model (VADService.vad_processor v)) as [m|]; [|left; now split].
  destruct (m _ _) as [c|]; [|left; now split].
  rewrite length_take, Nat.min_l by exact Hn.
  change (Z.of_nat VADService.VAD_CHUNK_SIZE) with 512%Z.
  destruct (_apply_hysteresis (VADService.vad_processor v) c 512)
    as [p' e] eqn:Hstep.
  right. cbn [fst snd confidence event VADService.vad_processor]. exact Hstep.
Qed.

Lemma frame_aligned_process_audio (v : VADService.t) (audio_chunk : list float) :
  frame_aligned (VADService.vad_processor v) ->
  frame_aligned
    (VADService.vad_processor (fst (VADService.process_audio v audio_chunk))).
Proof.
  intros H.
  destruct (process_audio_cases v audio_chunk) as [[Hp _]|Hstep].
  - now rewrite Hp.
  - destruct (frame_aligned_step _ (confidence (snd (VADService.process_audio
                                                       v audio_chunk))) H)
      as [H' _].
    now rewrite Hstep in H'.
Qed.

Variable sphn_reader : AudioService.OpusStreamReader.
Variable silero_vad : SileroVADProcessor.Model.
Variable b64decode : string -> result bytes.

(** The service the handler leaves is the one it found or the one
    [process_audio] returned, and what it sends is built from that result. *)
Lemma audio_chunk_body_cases (session : AudioSession.t) (now : float) (data : string) :
  let session' := fst (ConnectionService.audio_chunk_body b64decode session now data) in
  let sent := snd (ConnectionService.audio_chunk_body b64decode session now data) in
  (AudioSession.vad_service session' = AudioSession.vad_service session
   /\ sent = [])
  \/ exists audio_16k,
       let vr := VADService.process_audio (AudioSession.vad_service session) audio_16k in
       AudioSession.vad_service session' = fst vr
       /\ sent
          = match event (snd vr) with
            | Some e => [VADEventMessage e (confidence (snd vr)) now]
            | None => []
            end
            ++ (if float_gt (confidence (snd vr)) (1#10)%Q
                then [VADConfidenceMessage (confidence (snd vr))
                        (VADService.is_speaking (fst vr))]
                else []).
Proof.
  cbv zeta. unfold ConnectionService.audio_chunk_body.
  destruct (b64decode data) as [opus_data|]; [|left; now split].
  destruct (AudioService.process_opus_chunk _ _) as [a1 [pcm|]];
    [|left; now split].
  right. exists pcm.
  now destruct (VADService.process_audio (AudioSession.vad_service session) pcm).
Qed.

Lemma session_reachable_aligned (s : AudioSession.t) :
  ConnectionService.session_reachable sphn_reader silero_vad b64decode s ->
  frame_aligned (VADService.vad_processor (AudioSession.vad_service s)).
Proof.
  induction 1 as [|s now data _ IH|s _ IH].
  - apply frame_aligned_init.
  - destruct (audio_chunk_body_cases s now data) as [[Hv _]|(pcm & Hv & _)];
      rewrite Hv; [exact IH | now apply frame_aligned_process_audio].
  - now apply frame_aligned_reset.
Qed.

End DefaultSession.

(** The handler on a chunk that releases a frame on which the scorer
    answers: the session it leaves and what it sends. *)
Lemma audio_chunk_body_frame
    (b64decode : string -> result bytes) (session : AudioSession.t)
    (now : float) (data : string) (opus_data : bytes)
    (audio_service1 : AudioService.t) (audio_16k : list float)
    (m : SileroVADProcessor.Model) (c : float) :
  let vad := AudioSession.vad_service session in
  let p := VADService.vad_processor vad in
  let buffer := VADService.audio_buffer vad ++ audio_16k in
  let step := SileroVADProcessor._apply_hysteresis p c 512 in
  b64decode data = Ok opus_data ->
  AudioService.process_opus_chunk (AudioSession.audio_service session) opus_data
  = (audio_service1, Some audio_16k) ->
  VADService.VAD_CHUNK_SIZE <= length buffer ->
  SileroVADProcessor.model p = Some m ->
  m (take VADService.VAD_CHUNK_SIZE buffer) (SileroVADProcessor.sample_rate p)
  = Ok c ->
  ConnectionService.audio_chunk_body b64decode session now data
  = ({| AudioSession.audio_service := audio_service1;
        AudioSession.vad_service :=
          {| VADService.vad_processor := fst step;
             VADService.audio_buffer := drop VADService.VAD_CHUNK_SIZE buffer |} |},
     match snd step with
     | Some e => [VADEventMessage e c now]
     | None => []
     end
     ++ (if float_gt c (1#10)%Q
         then [VADConfidenceMessage c (SileroVADProcessor.is_speaking (fst step))]
         else [])).
Proof.
  intros vad p buffer step Hb Hp Hn Hm Hc. subst step.
  unfold ConnectionService.audio_chunk_body. rewrite Hb, Hp.
  unfold VADService.process_audio. fold vad. fold buffer.
  destruct (Nat.leb_spec VADService.VAD_CHUNK_SIZE (length buffer)) as [_|Hlt];
    [|lia].
  unfold SileroVADProcessor.process_audio_chunk. fold p. rewrite Hm, Hc.
  rewrite length_take, Nat.min_l by exact Hn.
  change (Z.of_nat VADService.VAD_CHUNK_SIZE) with 512%Z.
  now destruct (SileroVADProcessor._apply_hysteresis p c 512) as [p' e].
Qed.

(** Whenever the handler sends an event message, a frame was released, the
    scorer answered on it, and the hysteresis update returned that event. *)
Lemma event_message_origin
    (b64decode : string -> result bytes) (session : AudioSession.t)
    (now : float) (data : string) (e : VADEvent) (c t : float) :
  let vad := AudioSession.vad_service session in
  let p := VADService.vad_processor vad in
  In (VADEventMessage e c t)
     (snd (ConnectionService.audio_chunk_body b64decode session now data)) ->
  t = now
  /\ snd (SileroVADProcessor._apply_hysteresis p c 512) = Some e
  /\ exists opus_data audio_service1 audio_16k m,
       b64decode data = Ok opus_data
       /\ AudioService.process_opus_chunk
            (AudioSession.audio_service session) opus_data
          = (audio_service1, Some audio_16k)
       /\ VADService.VAD_CHUNK_SIZE
          <= length (VADService.audio_buffer vad ++ audio_16k)
       /\ SileroVADProcessor.model p = Some m
       /\ m (take VADService.VAD_CHUNK_SIZE
               (VADService.audio_buffer vad ++ audio_16k))
            (SileroVADProcessor.sample_rate p) = Ok c.
Proof.
  intros vad p Hin.
  unfold ConnectionService.audio_chunk_body in Hin.
  destruct (b64decode data) as [opus_data|] eqn:Hb; [|destruct Hin].
  destruct (AudioService.process_opus_chunk _ opus_data)
    as [a1 [pcm|]] eqn:Hp; [|destruct Hin].
  fold vad in Hin.
  destruct (Nat.le_gt_cases VADService.VAD_CHUNK_SIZE
              (length (VADService.audio_buffer vad ++ pcm))) as [Hn|Hlt].
  - destruct (SileroVADProcessor.model p) as [m|] eqn:Hm.
    + destruct (m (take VADService.VAD_CHUNK_SIZE
                     (VADService.audio_buffer vad ++ pcm))
                  (SileroVADProcessor.sample_rate p)) as [c0|] eqn:Hc.
      * pose proof (audio_chunk_body_frame b64decode session now data opus_data
                      a1 pcm m c0 Hb Hp Hn Hm Hc) as Hbody.
        cbv zeta in Hbody. unfold ConnectionService.audio_chunk_body in Hbody.
        rewrite Hb, Hp in Hbody. fold vad p in Hbody.
        rewrite Hbody in Hin. cbn [snd] in Hin.
        apply in_app_or in Hin. destruct Hin as [Hin|Hin].
        -- destruct (snd (SileroVADProcessor._apply_hysteresis p c0 512))
             as [e0|] eqn:He; [|destruct Hin].
           destruct Hin as [Heq|[]]. injection Heq as -> -> ->.
           split; [reflexivity|]. split; [exact He|].
           now exists opus_data, a1, pcm, m.
        -- destruct (float_gt c0 (1#10)%Q); [|destruct Hin].
           destruct Hin as [Heq|[]]. discriminate.
      * unfold VADService.process_audio in Hin. fold vad in Hin.
        destruct (Nat.leb_spec VADService.VAD_CHUNK_SIZE
                    (length (VADService.audio_buffer vad ++ pcm))) as [_|Hlt];
          [|lia].
        unfold SileroVADProcessor.process_audio_chunk in Hin. fold p in Hin.
        rewrite Hm, Hc in Hin. destruct Hin.
    + unfold VADService.process_audio in Hin. fold vad in Hin.
      destruct (Nat.leb_spec VADService.VAD_CHUNK_SIZE
                  (length (VADService.audio_buffer vad ++ pcm))) as [_|Hlt];
        [|lia].
      unfold SileroVADProcessor.process_audio_chunk in Hin. fold p in Hin.
      rewrite Hm in Hin. destruct Hin.
  - rewrite (process_audio_buffering vad pcm Hlt) in Hin. destruct Hin.
Qed.

(** X12: what the handler sends for a chunk that releases a frame on which
    the scorer answers [c].  It sends an event message exactly when the
    hysteresis update on [c] and 512 samples returns an event, with that
    event, [c] and the loop time read for this chunk; it sends a confidence
    message exactly when [c] is above 0.1, with [c] and [is_speaking] as the
    update leaves it; the event message comes first, and nothing else is
    sent. *)
Theorem audio_chunk_messages
    (b64decode : string -> result bytes) (session : AudioSession.t)
    (now : float) (data : string) (opus_data : bytes)
    (audio_service1 : AudioService.t) (audio_16k : list float)
    (m : SileroVADProcessor.Model) (c : float) :
  let vad := AudioSession.vad_service session in
  let p := VADService.vad_processor vad in
  let buffer := VADService.audio_buffer vad ++ audio_16k in
  let p' := fst (SileroVADProcessor._apply_hysteresis p c 512) in
  let e := snd (SileroVADProcessor._apply_hysteresis p c 512) in
  let sent := snd (ConnectionService.audio_chunk_body b64decode session now data) in
  b64decode data = Ok opus_data ->
  AudioService.process_opus_chunk (AudioSession.audio_service session) opus_data
  = (audio_service1, Some audio_16k) ->
  VADService.VAD_CHUNK_SIZE <= length buffer ->
  SileroVADProcessor.model p = Some m ->
  m (take VADService.VAD_CHUNK_SIZE buffer) (SileroVADProcessor.sample_rate p)
  = Ok c ->
  sent = match e with
         | Some ev => [VADEventMessage ev c now]
         | None => []
         end
         ++ (if float_gt c (1#10)%Q
             then [VADConfidenceMessage c (SileroVADProcessor.is_speaking p')]
             else [])
  /\ (forall ev c' t,
         In (VADEventMessage ev c' t) sent <-> e = Some ev /\ c' = c /\ t = now)
  /\ (forall c' speaking,
         In (VADConfidenceMessage c' speaking) sent
         <-> (1#10 < c)%Q /\ c' = c
             /\ speaking = SileroVADProcessor.is_speaking p')
  /\ (forall text, ~ In (ResetCompleteMessage text) sent).
Proof.
  intros vad p buffer p' e sent Hb Hp Hn Hm Hc.
  pose proof (audio_chunk_body_frame b64decode session now data opus_data
                audio_service1 audio_16k m c Hb Hp Hn Hm Hc) as Hbody.
  cbv zeta in Hbody. subst sent. rewrite Hbody. cbn [snd].
  fold vad p. fold p' e. clear Hbody.
  split; [reflexivity|].
  destruct (float_gt c (1#10)%Q) eqn:Hgt.
  - apply float_gt_spec in Hgt.
    split; [|split].
    + intros ev c' t. rewrite in_app_iff. split.
      * intros [Hin|[Heq|[]]]; [|discriminate].
        destruct e as [e0|]; [|destruct Hin].
        destruct Hin as [Heq|[]]. now injection Heq as -> -> ->.
      * intros (-> & -> & ->). left. now left.
    + intros c' speaking. rewrite in_app_iff. split.
      * intros [Hin|[Heq|[]]].
        -- destruct e as [e0|]; [|destruct Hin].
           destruct Hin as [Heq|[]]. discriminate.
        -- now injection Heq as -> ->.
      * intros (_ & -> & ->). right. now left.
    + intros text Hin. apply in_app_or in Hin. destruct Hin as [Hin|[Heq|[]]];
        [|discriminate].
      destruct e as [e0|]; [|destruct Hin]. destruct Hin as [Heq|[]].
      discriminate.
  - assert (Hle : ~ (1#10 < c)%Q).
    { intros H. apply float_gt_spec in H. congruence. }
    rewrite app_nil_r. split; [|split].
    + intros ev c' t. split.
      * intros Hin. destruct e as [e0|]; [|destruct Hin].
        destruct Hin as [Heq|[]]. now injection Heq as -> -> ->.
      * intros (-> & -> & ->). now left.
    + intros c' speaking. split.
      * intros Hin. destruct e as [e0|]; [|destruct Hin].
        destruct Hin as [Heq|[]]. discriminate.
      * intros (H & _). now destruct Hle.
    + intros text Hin. destruct e as [e0|]; [|destruct Hin].
      destruct Hin as [Heq|[]]. discriminate.
Qed.

Lemma audio_chunk_messages_witness :
  let s := Fixtures.fed (replicate 4 (Fixtures.loud 768)) in
  let opus_data := String.list_byte_of_string (Fixtures.loud 768) in
  let out := AudioService.process_opus_chunk (AudioSession.audio_service s) opus_data in
  Fixtures.scorer
    (take VADService.VAD_CHUNK_SIZE
       (VADService.audio_buffer (AudioSession.vad_service s)
        ++ default [] (snd out)))
    (SileroVADProcessor.sample_rate
       (VADService.vad_processor (AudioSession.vad_service s)))
  = Ok (200#256)%Q
  /\ snd (ConnectionService.audio_chunk_body Fixtures.b64decode s 0%Q
            (Fixtures.loud 768))
     = [VADEventMessage speech_start (200#256)%Q 0%Q;
        VADConfidenceMessage (200#256)%Q true].
Proof.
  cbv zeta.
  assert (Hc : Fixtures.scorer
                 (take VADService.VAD_CHUNK_SIZE
                    (VADService.audio_buffer
                       (AudioSession.vad_service
                          (Fixtures.fed (replicate 4 (Fixtures.loud 768))))
                     ++ default []
                          (snd (AudioService.process_opus_chunk
                                  (AudioSession.audio_service
                                     (Fixtures.fed (replicate 4 (Fixtures.loud 768))))
                                  (String.list_byte_of_string (Fixtures.loud 768))))))
                 (SileroVADProcessor.sample_rate
                    (VADService.vad_processor
                       (AudioSession.vad_service
                          (Fixtures.fed (replicate 4 (Fixtures.loud 768))))))
               = Ok (200#256)%Q) by (vm_compute; reflexivity).
  split; [exact Hc|].
  destruct (audio_chunk_messages Fixtures.b64decode
              (Fixtures.fed (replicate 4 (Fixtures.loud 768))) 0%Q
              (Fixtures.loud 768)
              (String.list_byte_of_string (Fixtures.loud 768))
              (fst (AudioService.process_opus_chunk
                      (AudioSession.audio_service
                         (Fixtures.fed (replicate 4 (Fixtures.loud 768))))
                      (String.list_byte_of_string (Fixtures.loud 768))))
              (default []
                 (snd (AudioService.process_opus_chunk
                         (AudioSession.audio_service
                            (Fixtures.fed (replicate 4 (Fixtures.loud 768))))
                         (String.list_byte_of_string (Fixtures.loud 768)))))
              Fixtures.scorer (200#256)%Q)
    as [Hsent _];
    [reflexivity | vm_compute; reflexivity | vm_compute; lia
     | vm_compute; reflexivity | exact Hc |].
  rewrite Hsent. vm_compute. reflexivity.
Defined.

Section DefaultSessionEvents.

Variable sphn_reader : AudioService.OpusStreamReader.
Variable silero_vad : SileroVADProcessor.Model.
Variable b64decode : string -> result bytes.

Lemma session_reachable_settings (s : AudioSession.t) :
  ConnectionService.session_reachable sphn_reader silero_vad b64decode s ->
  let p := VADService.vad_processor (AudioSession.vad_service s) in
  SileroVADProcessor.model p = Some silero_vad
  /\ SileroVADProcessor.sample_rate p = 16000%Z.
Proof.
  intros H.
  pose proof (session_reachable_reset sphn_reader silero_vad b64decode s H) as Hr.
  split.
  - exact (f_equal (fun x => SileroVADProcessor.model
                               (VADService.vad_processor
                                  (AudioSession.vad_service x))) Hr).
  - exact (f_equal (fun x => SileroVADProcessor.sample_rate
                               (VADService.vad_processor
                                  (AudioSession.vad_service x))) Hr).
Qed.

(** X13: in a session built with the default settings, in any reachable
    state, a chunk makes the handler send a [speech_start] event with
    confidence [c] exactly when it releases a frame on which the scorer
    answers [c], [c] is above 0.5, the session is not speaking yet and its
    speech run stands at 2048 samples, four frames of 512.  The run is then
    2560 samples, the first whole number of frames at or above the 150 ms
    minimum, and the event is followed at once by a confidence message that
    says [is_speaking = True]. *)
Theorem session_speech_start
    (s : AudioSession.t) (now : float) (data : string) (c t : float) :
  let vad := AudioSession.vad_service s in
  let p := VADService.vad_processor vad in
  let s' := fst (ConnectionService.audio_chunk_body b64decode s now data) in
  let sent := snd (ConnectionService.audio_chunk_body b64decode s now data) in
  ConnectionService.session_reachable sphn_reader silero_vad b64decode s ->
  (In (VADEventMessage speech_start c t) sent
   <-> t = now
       /\ SileroVADProcessor.is_speaking p = false
       /\ SileroVADProcessor.speech_frames p = 2048%Z
       /\ (1#2 < c)%Q
       /\ exists opus_data audio_service1 audio_16k,
            b64decode data = Ok opus_data
            /\ AudioService.process_opus_chunk
                 (AudioSession.audio_service s) opus_data
               = (audio_service1, Some audio_16k)
            /\ VADService.VAD_CHUNK_SIZE
               <= length (VADService.audio_buffer vad ++ audio_16k)
            /\ silero_vad
                 (take VADService.VAD_CHUNK_SIZE
                    (VADService.audio_buffer vad ++ audio_16k)) 16000%Z
               = Ok c)
  /\ (In (VADEventMessage speech_start c t) sent ->
      sent = [VADEventMessage speech_start c now; VADConfidenceMessage c true]
      /\ SileroVADProcessor.speech_frames
           (VADService.vad_processor (AudioSession.vad_service s')) = 2560%Z).
Proof.
  intros vad p s' sent Hreach. subst s' sent.
  pose proof (session_reachable_aligned _ _ _ s Hreach) as Hal.
  destruct (session_reachable_settings s Hreach) as [Hmodel Hrate].
  fold vad p in Hal, Hmodel, Hrate.
  pose proof (frame_aligned_step p c Hal) as [_ Hev]. cbv zeta in Hev.
  assert (Hforward :
            In (VADEventMessage speech_start c t)
               (snd (ConnectionService.audio_chunk_body b64decode s now data)) ->
            t = now
            /\ snd (SileroVADProcessor._apply_hysteresis p c 512) = Some speech_start
            /\ exists opus_data audio_service1 audio_16k,
                 b64decode data = Ok opus_data
                 /\ AudioService.process_opus_chunk
                      (AudioSession.audio_service s) opus_data
                    = (audio_service1, Some audio_16k)
                 /\ VADService.VAD_CHUNK_SIZE
                    <= length (VADService.audio_buffer vad ++ audio_16k)
                 /\ silero_vad
                      (take VADService.VAD_CHUNK_SIZE
                         (VADService.audio_buffer vad ++ audio_16k)) 16000%Z
                    = Ok c).
  { intros Hin.
    destruct (event_message_origin b64decode s now data speech_start c t Hin)
      as (Ht & He & od & a1 & pcm & m & Hb & Hp & Hn & Hm & Hc).
    fold vad p in He, Hn, Hm, Hc.
    rewrite Hmodel in Hm. injection Hm as <-. rewrite Hrate in Hc.
    split; [exact Ht|]. split; [exact He|]. now exists od, a1, pcm. }
  split; [split|].
  - intros Hin. destruct (Hforward Hin) as (Ht & He & Hex).
    rewrite He in Hev. destruct Hev as (Hc & Hframes & _).
    pose proof (hysteresis_step_event p c 512) as Hstep.
    pose proof (hysteresis_event_conditions p c 512) as Hcond.
    destruct (SileroVADProcessor._apply_hysteresis p c 512) as [p' e].
    cbn [fst snd] in *. subst e.
    destruct Hstep as [Hsp _]. destruct Hcond as (_ & Hfr & _).
    repeat split; try assumption. lia.
  - intros (Ht & Hsp & Hfr & Hc & od & a1 & pcm & Hb & Hp & Hn & Hans).
    rewrite <- Hrate in Hans.
    rewrite (audio_chunk_body_frame b64decode s now data od a1 pcm silero_vad c
               Hb Hp Hn Hmodel Hans).
    cbn [snd]. fold vad p.
    assert (Hstep : SileroVADProcessor._apply_hysteresis p c 512
                    = (SileroVADProcessor.set_state p true
                         (SileroVADProcessor.speech_frames p + 512) 0,
                       Some speech_start)).
    { destruct Hal as (H1 & _ & H3 & _).
      rewrite (speech_step_silent p c 512 Hsp) by (rewrite H3; exact Hc).
      rewrite (int_ge_float_inject _ 2400 _ H1), Hfr. reflexivity. }
    rewrite Hstep. cbn [snd app]. left. now rewrite Ht.
  - intros Hin. destruct (Hforward Hin) as (Ht & He & od & a1 & pcm & Hb & Hp & Hn & Hans).
    rewrite <- Hrate in Hans.
    rewrite (audio_chunk_body_frame b64decode s now data od a1 pcm silero_vad c
               Hb Hp Hn Hmodel Hans).
    cbn [fst snd AudioSession.vad_service VADService.vad_processor].
    fold vad p. rewrite He in Hev |- *.
    destruct Hev as (Hc & Hframes & Hspeaking).
    assert (Hgt : float_gt c (1#10)%Q = true).
    { apply float_gt_spec. eapply Qlt_trans; [|exact Hc]. reflexivity. }
    rewrite Hgt, Hspeaking. now split.
Qed.

(** X14: in such a session a chunk makes the handler send a [speech_end]
    event with confidence [c] exactly when it releases a frame on which the
    scorer answers [c], [c] is below 0.3, the session is speaking and its
    silence run stands at 6144 samples, twelve frames of 512.  The run is then
    6656 samples, the first whole number of frames at or above the 400 ms
    minimum, the session is no longer speaking, and the only message that
    follows, for [c] above 0.1, is a confidence message that says
    [is_speaking = False]. *)
Theorem session_speech_end
    (s : AudioSession.t) (now : float) (data : string) (c t : float) :
  let vad := AudioSession.vad_service s in
  let p := VADService.vad_processor vad in
  let s' := fst (ConnectionService.audio_chunk_body b64decode s now data) in
  let sent := snd (ConnectionService.audio_chunk_body b64decode s now data) in
  ConnectionService.session_reachable sphn_reader silero_vad b64decode s ->
  (In (VADEventMessage speech_end c t) sent
   <-> t = now
       /\ SileroVADProcessor.is_speaking p = true
       /\ SileroVADProcessor.silence_frames p = 6144%Z
       /\ (c < 3#10)%Q
       /\ exists opus_data audio_service1 audio_16k,
            b64decode data = Ok opus_data
            /\ AudioService.process_opus_chunk
                 (AudioSession.audio_service s) opus_data
               = (audio_service1, Some audio_16k)
            /\ VADService.VAD_CHUNK_SIZE
               <= length (VADService.audio_buffer vad ++ audio_16k)
            /\ silero_vad
                 (take VADService.VAD_CHUNK_SIZE
                    (VADService.audio_buffer vad ++ audio_16k)) 16000%Z
               = Ok c)
  /\ (In (VADEventMessage speech_end c t) sent ->
      sent = VADEventMessage speech_end c now
             :: (if float_gt c (1#10)%Q
                 then [VADConfidenceMessage c false] else [])
      /\ VADService.is_speaking (AudioSession.vad_service s') = false
      /\ SileroVADProcessor.silence_frames
           (VADService.vad_processor (AudioSession.vad_service s')) = 6656%Z).
Proof.
  intros vad p s' sent Hreach. subst s' sent.
  pose proof (session_reachable_aligned _ _ _ s Hreach) as Hal.
  destruct (session_reachable_settings s Hreach) as [Hmodel Hrate].
  fold vad p in Hal, Hmodel, Hrate.
  pose proof (frame_aligned_step p c Hal) as [_ Hev]. cbv zeta in Hev.
  assert (Hforward :
            In (VADEventMessage speech_end c t)
               (snd (ConnectionService.audio_chunk_body b64decode s now data)) ->
            t = now
            /\ snd (SileroVADProcessor._apply_hysteresis p c 512) = Some speech_end
            /\ exists opus_data audio_service1 audio_16k,
                 b64decode data = Ok opus_data
                 /\ AudioService.process_opus_chunk
                      (AudioSession.audio_service s) opus_data
                    = (audio_service1, Some audio_16k)
                 /\ VADService.VAD_CHUNK_SIZE
                    <= length (VADService.audio_buffer vad ++ audio_16k)
                 /\ silero_vad
                      (take VADService.VAD_CHUNK_SIZE
                         (VADService.audio_buffer vad ++ audio_16k)) 16000%Z
                    = Ok c).
  { intros Hin.
    destruct (event_message_origin b64decode s now data speech_end c t Hin)
      as (Ht & He & od & a1 & pcm & m & Hb & Hp & Hn & Hm & Hc).
    fold vad p in He, Hn, Hm, Hc.
    rewrite Hmodel in Hm. injection Hm as <-. rewrite Hrate in Hc.
    split; [exact Ht|]. split; [exact He|]. now exists od, a1, pcm. }
  split; [split|].
  - intros Hin. destruct (Hforward Hin) as (Ht & He & Hex).
    rewrite He in Hev. destruct Hev as (Hc & Hframes & _).
    pose proof (hysteresis_step_event p c 512) as Hstep.
    pose proof (hysteresis_event_conditions p c 512) as Hcond.
    destruct (SileroVADProcessor._apply_hysteresis p c 512) as [p' e].
    cbn [fst snd] in *. subst e.
    destruct Hstep as [Hsp _]. destruct Hcond as (_ & Hfr & _).
    repeat split; try assumption. lia.
  - intros (Ht & Hsp & Hfr & Hc & od & a1 & pcm & Hb & Hp & Hn & Hans).
    rewrite <- Hrate in Hans.
    rewrite (audio_chunk_body_frame b64decode s now data od a1 pcm silero_vad c
               Hb Hp Hn Hmodel Hans).
    cbn [snd]. fold vad p.
    assert (Hstep : SileroVADProcessor._apply_hysteresis p c 512
                    = (SileroVADProcessor.set_state p false 0
                         (SileroVADProcessor.silence_frames p + 512),
                       Some speech_end)).
    { destruct Hal as (_ & H2 & H3 & H4 & _).
      rewrite (silence_step_speaking p c 512 Hsp)
        by (rewrite ?H3, ?H4; first [exact Hc | vm_compute; discriminate]).
      rewrite (int_ge_float_inject _ 6400 _ H2), Hfr. reflexivity. }
    rewrite Hstep. cbn [snd app]. left. now rewrite Ht.
  - intros Hin. destruct (Hforward Hin) as (Ht & He & od & a1 & pcm & Hb & Hp & Hn & Hans).
    rewrite <- Hrate in Hans.
    rewrite (audio_chunk_body_frame b64decode s now data od a1 pcm silero_vad c
               Hb Hp Hn Hmodel Hans).
    cbn [fst snd AudioSession.vad_service VADService.vad_processor].
    fold vad p. rewrite He in Hev |- *.
    destruct Hev as (Hc & Hframes & Hspeaking).
    unfold VADService.is_speaking. cbn [VADService.vad_processor].
    rewrite Hspeaking. now repeat split.
Qed.

End DefaultSessionEvents.

Lemma session_speech_start_witness :
  let s := Fixtures.fed (replicate 4 (Fixtures.loud 768)) in
  ConnectionService.session_reachable
    Fixtures.reader Fixtures.scorer Fixtures.b64decode s
  /\ snd (ConnectionService.audio_chunk_body
            Fixtures.b64decode s 0%Q (Fixtures.loud 768))
     = [VADEventMessage speech_start (200#256)%Q 0%Q;
        VADConfidenceMessage (200#256)%Q true].
Proof.
  cbv zeta. split; [apply fed_reachable|].
  destruct (session_speech_start Fixtures.reader Fixtures.scorer
              Fixtures.b64decode
              (Fixtures.fed (replicate 4 (Fixtures.loud 768))) 0%Q
              (Fixtures.loud 768) (200#256)%Q 0%Q (fed_reachable _))
    as [_ Hthen].
  apply Hthen. vm_compute. left. reflexivity.
Defined.

Lemma session_speech_end_witness :
  let s := Fixtures.fed (replicate 5 (Fixtures.loud 768)
                         ++ replicate 13 (MoreFixtures.quiet 768)) in
  ConnectionService.session_reachable
    Fixtures.reader Fixtures.scorer Fixtures.b64decode s
  /\ SileroVADProcessor.silence_frames
       (VADService.vad_processor
          (AudioSession.vad_service
             (fst (ConnectionService.audio_chunk_body
                     Fixtures.b64decode s 0%Q (MoreFixtures.quiet 768))))) = 6656%Z.
Proof.
  cbv zeta. split; [apply fed_reachable|].
  destruct (session_speech_end Fixtures.reader Fixtures.scorer
              Fixtures.b64decode
              (Fixtures.fed (replicate 5 (Fixtures.loud 768)
                             ++ replicate 13 (MoreFixtures.quiet 768))) 0%Q
              (MoreFixtures.quiet 768) (48#256)%Q 0%Q (fed_reachable _))
    as [_ Hthen].
  apply Hthen. vm_compute. left. reflexivity.
Defined.

(** ** The registry of sessions *)

(** X15: connecting a websocket that is not registered registers a session
    as [AudioSession()] builds it and raises the count by one; disconnecting
    it again gives back the registry as it was. *)
Theorem connect_disconnect_round_trip
    (sphn_reader : AudioService.OpusStreamReader)
    (silero_vad : SileroVADProcessor.Model)
    (cs : ConnectionService.t) (websocket : WebSocket) :
  let cs1 := ConnectionService.connect sphn_reader silero_vad cs websocket in
  ConnectionService.active_sessions cs !! websocket = None ->
  ConnectionService.active_sessions cs1 !! websocket
  = Some (AudioSession.init sphn_reader silero_vad)
  /\ ConnectionService.connection_count cs1
     = S (ConnectionService.connection_count cs)
  /\ ConnectionService.disconnect cs1 websocket = cs.
Proof.
  intros cs1 Hnone. subst cs1. destruct cs as [sessions].
  unfold ConnectionService.connect, ConnectionService.disconnect,
    ConnectionService.connection_count.
  cbn [ConnectionService.active_sessions] in *.
  split; [apply lookup_insert_eq|].
  split; [now apply map_size_insert_None|].
  f_equal. now apply delete_insert_id.
Qed.

Lemma connect_disconnect_round_trip_witness :
  ConnectionService.active_sessions MoreFixtures.two_clients !! 3%positive = None
  /\ ConnectionService.connection_count
       (ConnectionService.connect Fixtures.reader Fixtures.scorer
          MoreFixtures.two_clients 3%positive)
     = S (ConnectionService.connection_count MoreFixtures.two_clients).
Proof.
  assert (H : ConnectionService.active_sessions MoreFixtures.two_clients
              !! 3%positive = None) by reflexivity.
  split; [exact H|].
  apply (connect_disconnect_round_trip Fixtures.reader Fixtures.scorer
           MoreFixtures.two_clients 3%positive H).
Defined.

(** X16: for a websocket with no registered session, an audio chunk and a
    reset are dropped, with the registry unchanged and nothing sent, and
    disconnecting changes nothing. *)
Theorem unknown_websocket_ignored
    (b64decode : string -> result bytes) (cs : ConnectionService.t)
    (now : float) (websocket : WebSocket) (data : string) :
  ConnectionService.active_sessions cs !! websocket = None ->
  ConnectionService.handle_audio_chunk b64decode cs now websocket data = (cs, [])
  /\ ConnectionService.handle_reset cs websocket = (cs, [])
  /\ ConnectionService.disconnect cs websocket = cs.
Proof.
  intros Hnone.
  unfold ConnectionService.handle_audio_chunk, ConnectionService.handle_reset,
    ConnectionService.disconnect.
  rewrite Hnone. repeat split.
  destruct cs as [sessions]. cbn [ConnectionService.active_sessions] in *.
  f_equal. now apply delete_id.
Qed.

Lemma unknown_websocket_ignored_witness :
  ConnectionService.active_sessions MoreFixtures.two_clients !! 3%positive = None
  /\ ConnectionService.handle_reset MoreFixtures.two_clients 3%positive
     = (MoreFixtures.two_clients, []).
Proof.
  assert (H : ConnectionService.active_sessions MoreFixtures.two_clients
              !! 3%positive = None) by reflexivity.
  split; [exact H|].
  apply (unknown_websocket_ignored Fixtures.b64decode MoreFixtures.two_clients
           0%Q 3%positive "abc" H).
Defined.

(** ** The websocket endpoint *)

Section EndpointProperties.

Variable sphn_reader : AudioService.OpusStreamReader.
Variable silero_vad : SileroVADProcessor.Model.
Variable b64decode : string -> result bytes.

(** What a text frame can do to the registry: nothing, or replace the
    session of its own websocket, which was registered. *)
Lemma on_text_registry (cs : ConnectionService.t) (websocket : WebSocket)
    (now : float) (parsed : result Endpoint.json) :
  let cs' := fst (Endpoint.on_text b64decode cs websocket now parsed) in
  cs' = cs
  \/ exists session',
       is_Some (ConnectionService.active_sessions cs !! websocket)
       /\ ConnectionService.active_sessions cs'
          = <[websocket := session']> (ConnectionService.active_sessions cs).
Proof.
  cbv zeta. unfold Endpoint.on_text.
  destruct parsed as [[| | | | |d]|]; try (now left).
  destruct (Endpoint.equals_str (d !! "type") "audio_chunk").
  - destruct (Endpoint.AudioChunkMessage d) as [data|]; [|now left].
    unfold ConnectionService.handle_audio_chunk.
    destruct (ConnectionService.active_sessions cs !! websocket)
      as [session|] eqn:Hs; [|now left].
    destruct (ConnectionService.audio_chunk_body b64decode session now data)
      as [session1 sent].
    right. exists session1. split; [eauto | reflexivity].
  - destruct (Endpoint.equals_str (d !! "type") "reset"); [|now destruct (Endpoint.equals_str _ _); left].
    destruct (Endpoint.ResetMessage d); [|now left].
    unfold ConnectionService.handle_reset.
    destruct (ConnectionService.active_sessions cs !! websocket)
      as [session|] eqn:Hs; [|now left].
    right. exists (AudioSession.reset session).
    split; [eauto | reflexivity].
Qed.

(** X17: sessions are isolated: a text frame on one websocket, and its
    connect and disconnect, leave the session registered for any other
    websocket exactly as it was. *)
Theorem sessions_isolated (cs : ConnectionService.t) (websocket other : WebSocket)
    (now : float) (parsed : result Endpoint.json) :
  other <> websocket ->
  ConnectionService.active_sessions
    (fst (Endpoint.on_text b64decode cs websocket now parsed)) !! other
  = ConnectionService.active_sessions cs !! other
  /\ ConnectionService.active_sessions
       (ConnectionService.connect sphn_reader silero_vad cs websocket) !! other
     = ConnectionService.active_sessions cs !! other
  /\ ConnectionService.active_sessions
       (ConnectionService.disconnect cs websocket) !! other
     = ConnectionService.active_sessions cs !! other.
Proof.
  intros Hne. split; [|split].
  - destruct (on_text_registry cs websocket now parsed)
      as [->|(session' & _ & ->)]; [reflexivity|].
    now apply lookup_insert_ne.
  - cbn. now apply lookup_insert_ne.
  - cbn. now apply lookup_delete_ne.
Qed.

(** X18: no text frame changes the number of registered sessions. *)
Theorem on_text_keeps_count (cs : ConnectionService.t) (websocket : WebSocket)
    (now : float) (parsed : result Endpoint.json) :
  ConnectionService.connection_count
    (fst (Endpoint.on_text b64decode cs websocket now parsed))
  = ConnectionService.connection_count cs.
Proof.
  unfold ConnectionService.connection_count.
  destruct (on_text_registry cs websocket now parsed)
    as [->|(session' & Hsome & ->)]; [reflexivity|].
  now apply map_size_insert_Some.
Qed.

(** X19: a frame that is not a message of the protocol is dropped: text
    that is no JSON, JSON that is no object, an object whose [type] is neither
    ["audio_chunk"] nor ["reset"] (missing, no string, ["test"] or anything
    else), and an audio chunk whose [data] is missing or no string, change
    nothing and send nothing. *)
Theorem protocol_violation_dropped (cs : ConnectionService.t)
    (websocket : WebSocket) (now : float) (parsed : result Endpoint.json) :
  (parsed = Raised
   \/ (exists v, parsed = Ok v /\ forall d, v <> Endpoint.JObject d)
   \/ (exists d, parsed = Ok (Endpoint.JObject d)
         /\ Endpoint.equals_str (d !! "type") "audio_chunk" = false
         /\ Endpoint.equals_str (d !! "type") "reset" = false)
   \/ (exists d, parsed = Ok (Endpoint.JObject d)
         /\ Endpoint.equals_str (d !! "type") "audio_chunk" = true
         /\ forall data, d !! "data" <> Some (Endpoint.JString data))) ->
  Endpoint.on_text b64decode cs websocket now parsed = (cs, []).
Proof.
  intros [->|[(v & -> & Hv)|[(d & -> & H1 & H2)|(d & -> & H1 & H2)]]].
  - reflexivity.
  - destruct v; try reflexivity. now destruct (Hv members).
  - unfold Endpoint.on_text. cbv zeta. rewrite H1, H2.
    destruct (Endpoint.equals_str (d !! "type") "test"); reflexivity.
  - unfold Endpoint.on_text. cbv zeta. rewrite H1.
    unfold Endpoint.AudioChunkMessage.
    destruct (d !! "type") as [[]|]; try reflexivity.
    destruct (d !! "data") as [[| | |data| |]|] eqn:Hd; try reflexivity.
    now destruct (H2 data).
Qed.

Lemma receive_loop_registry (received : list (float * result Endpoint.json)) :
  forall cs websocket,
    delete websocket
      (ConnectionService.active_sessions
         (fst (Endpoint.receive_loop b64decode cs websocket received)))
    = delete websocket (ConnectionService.active_sessions cs).
Proof.
  induction received as [|[now parsed] rest IH]; intros cs websocket;
    [reflexivity|].
  cbn [Endpoint.receive_loop].
  pose proof (on_text_registry cs websocket now parsed) as Hstep.
  destruct (Endpoint.on_text b64decode cs websocket now parsed) as [cs1 sent1].
  specialize (IH cs1 websocket).
  destruct (Endpoint.receive_loop b64decode cs1 websocket rest) as [cs2 sent2].
  cbn [fst] in *. rewrite IH.
  destruct Hstep as [->|(session' & _ & ->)]; [reflexivity|].
  apply delete_insert_eq.
Qed.

(** X20: a connection leaves no trace in the registry.  Whatever frames
    arrive between accept and disconnect, when [websocket_endpoint] is done
    the websocket is not registered and every other entry is as it was: the
    registry is the one before the connection with this websocket removed,
    hence the same registry when the websocket was not in it. *)
Theorem websocket_endpoint_registry (cs : ConnectionService.t)
    (websocket : WebSocket) (received : list (float * result Endpoint.json)) :
  let cs' := fst (Endpoint.websocket_endpoint
                    sphn_reader silero_vad b64decode cs websocket received) in
  ConnectionService.active_sessions cs'
  = delete websocket (ConnectionService.active_sessions cs)
  /\ ConnectionService.active_sessions cs' !! websocket = None
  /\ (ConnectionService.active_sessions cs !! websocket = None -> cs' = cs).
Proof.
  cbv zeta. unfold Endpoint.websocket_endpoint.
  pose proof (receive_loop_registry received
                (ConnectionService.connect sphn_reader silero_vad cs websocket)
                websocket) as Hloop.
  destruct (Endpoint.receive_loop _ _ _ _) as [cs1 sent].
  cbn [fst ConnectionService.disconnect ConnectionService.active_sessions
       ConnectionService.connect] in *.
  rewrite delete_insert_eq in Hloop.
  split; [exact Hloop|]. split; [apply lookup_delete_eq|].
  intros Hnone. destruct cs as [sessions].
  cbn [ConnectionService.active_sessions] in *.
  unfold ConnectionService.disconnect. f_equal.
  etrans; [exact Hloop | now apply delete_id].
Qed.

End EndpointProperties.

Lemma sessions_isolated_witness :
  2%positive <> 1%positive
  /\ ConnectionService.active_sessions
       (fst (Endpoint.on_text Fixtures.b64decode MoreFixtures.two_clients
               1%positive 0%Q (Ok MoreFixtures.reset_json))) !! 2%positive
     = ConnectionService.active_sessions MoreFixtures.two_clients !! 2%positive.
Proof.
  assert (H : 2%positive <> 1%positive) by discriminate.
  split; [exact H|].
  apply (sessions_isolated Fixtures.reader Fixtures.scorer Fixtures.b64decode
           MoreFixtures.two_clients 1%positive 2%positive 0%Q
           (Ok MoreFixtures.reset_json) H).
Defined.

Lemma protocol_violation_dropped_witness :
  Endpoint.on_text Fixtures.b64decode MoreFixtures.two_clients 1%positive 0%Q
    (Ok (Endpoint.JArray []))
  = (MoreFixtures.two_clients, []).
Proof.
  apply (protocol_violation_dropped Fixtures.b64decode MoreFixtures.two_clients
           1%positive 0%Q (Ok (Endpoint.JArray []))).
  right. left. exists (Endpoint.JArray []).
  split; [reflexivity | intros d; discriminate].
Defined.

Section EndpointSession.

Variable sphn_reader : AudioService.OpusStreamReader.
Variable silero_vad : SileroVADProcessor.Model.
Variable b64decode : string -> result bytes.

Lemma on_text_audio_chunk (cs : ConnectionService.t) (websocket : WebSocket)
    (frame : float * result Endpoint.json) (chunk : float * string) :
  carries frame chunk ->
  Endpoint.on_text b64decode cs websocket (fst frame) (snd frame)
  = ConnectionService.handle_audio_chunk b64decode cs (fst chunk) websocket
      (snd chunk).
Proof.
  intros (Ht & d & Hd & Htype & Hdata). rewrite Hd, Ht.
  unfold Endpoint.on_text, Endpoint.AudioChunkMessage. cbv zeta.
  rewrite Htype, Hdata. reflexivity.
Qed.

Lemma receive_loop_session (received : list (float * result Endpoint.json))
    (chunks : list (float * string)) (websocket : WebSocket) :
  Forall2 carries received chunks ->
  forall cs session,
    ConnectionService.active_sessions cs !! websocket = Some session ->
    snd (Endpoint.receive_loop b64decode cs websocket received)
    = snd (ConnectionService.session_run b64decode session chunks)
    /\ ConnectionService.active_sessions
         (fst (Endpoint.receive_loop b64decode cs websocket received)) !! websocket
       = Some (fst (ConnectionService.session_run b64decode session chunks)).
Proof.
  induction 1 as [|[now parsed] [now' data] received chunks Hc _ IH];
    intros cs session Hs.
  - now split.
  - cbn [Endpoint.receive_loop ConnectionService.session_run].
    pose proof (on_text_audio_chunk cs websocket _ _ Hc) as Hstep.
    cbn [fst snd] in Hstep. rewrite Hstep.
    unfold ConnectionService.handle_audio_chunk. rewrite Hs.
    destruct (ConnectionService.audio_chunk_body b64decode session now' data)
      as [session1 sent1].
    specialize (IH {| ConnectionService.active_sessions :=
                        <[websocket := session1]>
                          (ConnectionService.active_sessions cs) |}
                   session1 (lookup_insert_eq _ _ _)).
    destruct (Endpoint.receive_loop _ _ _ received) as [cs2 sent2].
    destruct (ConnectionService.session_run b64decode session1 chunks)
      as [session2 sent2'].
    cbn [fst snd] in *. destruct IH as [-> ->]. now split.
Qed.

(** X21: a connection is served by a session of its own.  When the frames
    of a connection are audio chunk messages, what [websocket_endpoint] sends
    is what a newly built session sends for their payloads, whatever the
    registry held when the client connected. *)
Theorem websocket_endpoint_fresh_session (cs : ConnectionService.t)
    (websocket : WebSocket) (received : list (float * result Endpoint.json))
    (chunks : list (float * string)) :
  Forall2 carries received chunks ->
  snd (Endpoint.websocket_endpoint
         sphn_reader silero_vad b64decode cs websocket received)
  = snd (ConnectionService.session_run b64decode
           (AudioSession.init sphn_reader silero_vad) chunks).
Proof.
  intros H. unfold Endpoint.websocket_endpoint.
  destruct (receive_loop_session received chunks websocket H
              (ConnectionService.connect sphn_reader silero_vad cs websocket)
              (AudioSession.init sphn_reader silero_vad)) as [Hsent _].
  { apply lookup_insert_eq. }
  now destruct (Endpoint.receive_loop _ _ _ _) as [cs1 sent].
Qed.

End EndpointSession.

Lemma websocket_endpoint_fresh_session_witness :
  let received := [(0%Q, Ok (MoreFixtures.audio_chunk_json (Fixtures.loud 768)))] in
  let chunks := [(0%Q, Fixtures.loud 768)] in
  Forall2 carries received chunks
  /\ snd (Endpoint.websocket_endpoint Fixtures.reader Fixtures.scorer
            Fixtures.b64decode MoreFixtures.two_clients 1%positive received)
     = snd (ConnectionService.session_run Fixtures.b64decode Fixtures.session chunks).
Proof.
  cbv zeta.
  assert (H : Forall2 carries
                [(0%Q, Ok (MoreFixtures.audio_chunk_json (Fixtures.loud 768)))]
                [(0%Q, Fixtures.loud 768)]).
  { constructor; [|constructor]. split; [reflexivity|].
    eexists. split; [reflexivity|]. split.
    - apply lookup_insert_eq.
    - rewrite lookup_insert_ne by discriminate. apply lookup_insert_eq. }
  split; [exact H|].
  apply (websocket_endpoint_fresh_session Fixtures.reader Fixtures.scorer
           Fixtures.b64decode MoreFixtures.two_clients 1%positive _ _ H).
Defined.

(** ** Resampler: the ratio of one call *)

(** X22: a call that resamples a buffer of [n] samples returns
    [ceil(2n/3)] samples: three times the output count lies between [2n] and
    [2n + 2], two samples out for every three in. *)
Theorem resample_ratio (self : AudioService.t) (audio_24k : list float) :
  let n := length (AudioService.audio_buffer self ++ audio_24k) in
  let m := length (snd (AudioService.resample_24k_to_16k self audio_24k)) in
  3 <= n ->
  m = (2 * n + 2) / 3 /\ 2 * n <= 3 * m <= 2 * n + 2.
Proof.
  intros n m Hn. subst m.
  rewrite (resample_output_length self audio_24k Hn). fold n.
  split; [reflexivity|].
  pose proof (Nat.div_mod_eq (2 * n + 2) 3) as Hdm.
  pose proof (Nat.mod_upper_bound (2 * n + 2) 3) as Hm.
  lia.
Qed.

Lemma resample_ratio_witness :
  3 <= length (AudioService.audio_buffer (AudioService.init Fixtures.reader)
               ++ [1; 2; 3; 4; 5]%Q)
  /\ length (snd (AudioService.resample_24k_to_16k
                    (AudioService.init Fixtures.reader) [1; 2; 3; 4; 5]%Q)) = 4.
Proof.
  assert (H : 3 <= length (AudioService.audio_buffer
                             (AudioService.init Fixtures.reader)
                           ++ [1; 2; 3; 4; 5]%Q)) by (vm_compute; lia).
  split; [exact H|].
  destruct (resample_ratio (AudioService.init Fixtures.reader)
              [1; 2; 3; 4; 5]%Q H) as [Hm _].
  rewrite Hm. reflexivity.
Defined.

(** ** Reset, with the decoder and the scorer as objects *)

Section LiveReset.

Variable Reader : Type.
Variable append_bytes : Reader -> bytes -> Reader * result (list float).
Variable Net : Type.
Variable forward : Net -> list float -> Z -> Net * result float.
Variable b64decode : string -> result bytes.

Lemma live_apply_hysteresis_blank (n : Net)
    (p : Live.SileroVADProcessor.t Net) (c : float) (k : Z) :
  blank_processor Net n (fst (Live.SileroVADProcessor._apply_hysteresis Net p c k))
  = blank_processor Net n p.
Proof.
  unfold blank_processor, Live.SileroVADProcessor._apply_hysteresis.
  repeat match goal with
         | |- context [if ?b then _ else _] => destruct b
         end; reflexivity.
Qed.

Lemma live_process_audio_chunk_blank (n : Net)
    (p : Live.SileroVADProcessor.t Net) (chunk : list float) :
  blank_processor Net n
    (fst (Live.SileroVADProcessor.process_audio_chunk Net forward p chunk))
  = blank_processor Net n p.
Proof.
  unfold Live.SileroVADProcessor.process_audio_chunk.
  destruct (Live.SileroVADProcessor.model Net p) as [net|] eqn:Hm; [|reflexivity].
  destruct (forward net chunk _) as [net1 [c|]].
  - pose proof (live_apply_hysteresis_blank n
                  (Live.SileroVADProcessor.set_model Net p (Some net1))
                  c (Z.of_nat (length chunk))) as H.
    destruct (Live.SileroVADProcessor._apply_hysteresis Net _ c _) as [p2 e].
    cbn [fst] in *. rewrite H. unfold blank_processor.
    cbn. now rewrite Hm.
  - cbn [fst]. unfold blank_processor. cbn. now rewrite Hm.
Qed.

Lemma live_process_audio_blank (n : Net)
    (v : Live.VADService.t Net) (chunk : list float) :
  blank_processor Net n
    (Live.VADService.vad_processor Net
       (fst (Live.VADService.process_audio Net forward v chunk)))
  = blank_processor Net n (Live.VADService.vad_processor Net v).
Proof.
  unfold Live.VADService.process_audio.
  destruct (_ <=? _); [|reflexivity].
  pose proof (live_process_audio_chunk_blank n
                (Live.VADService.vad_processor Net v)
                (take Live.VADService.VAD_CHUNK_SIZE
                   (Live.VADService.audio_buffer Net v ++ chunk))) as H.
  now destruct (Live.SileroVADProcessor.process_audio_chunk Net forward _ _)
    as [p [[e c]|]].
Qed.

Lemma live_process_opus_chunk_blank (r : Reader)
    (a : Live.AudioService.t Reader) (opus_data : bytes) :
  Live.AudioService.set_opus_reader Reader
    (Live.AudioService.reset Reader
       (fst (Live.AudioService.process_opus_chunk Reader append_bytes a opus_data)))
    r
  = Live.AudioService.set_opus_reader Reader (Live.AudioService.reset Reader a) r.
Proof.
  unfold Live.AudioService.process_opus_chunk, Live.AudioService.decode_opus.
  destruct (append_bytes _ opus_data) as [r1 [pcm|]]; [|reflexivity].
  destruct (0 <? length pcm); [|reflexivity].
  unfold Live.AudioService.resample_24k_to_16k.
  destruct (_ <=? _); reflexivity.
Qed.

Lemma with_objects_reset (r : Reader) (n : Net) (s : Live.AudioSession.t Reader Net) :
  Live.AudioSession.with_objects Reader Net r n (Live.AudioSession.reset Reader Net s)
  = {| Live.AudioSession.audio_service :=
         Live.AudioService.set_opus_reader Reader
           (Live.AudioService.reset Reader
              (Live.AudioSession.audio_service Reader Net s)) r;
       Live.AudioSession.vad_service :=
         {| Live.VADService.vad_processor :=
              blank_processor Net n
                (Live.VADService.vad_processor Net
                   (Live.AudioSession.vad_service Reader Net s));
            Live.VADService.audio_buffer := [] |} |}.
Proof. reflexivity. Qed.

(** Clearing the three pieces of state and putting both objects to given
    states gives the same session before and after a chunk. *)
Lemma live_body_blank (r : Reader) (n : Net) (s : Live.AudioSession.t Reader Net)
    (now : float) (data : string) :
  Live.AudioSession.with_objects Reader Net r n
    (Live.AudioSession.reset Reader Net
       (fst (Live.AudioSession.audio_chunk_body Reader append_bytes Net forward b64decode
               s now data)))
  = Live.AudioSession.with_objects Reader Net r n (Live.AudioSession.reset Reader Net s).
Proof.
  rewrite !with_objects_reset.
  unfold Live.AudioSession.audio_chunk_body.
  destruct (b64decode data) as [opus_data|]; [|reflexivity].
  pose proof (live_process_opus_chunk_blank r
                (Live.AudioSession.audio_service Reader Net s) opus_data) as Ha.
  destruct (Live.AudioService.process_opus_chunk Reader append_bytes _ _)
    as [a1 [pcm|]]; cbn [fst] in Ha.
  - pose proof (live_process_audio_blank n
                  (Live.AudioSession.vad_service Reader Net s) pcm) as Hv.
    destruct (Live.VADService.process_audio Net forward _ pcm) as [v1 res].
    cbn [fst Live.AudioSession.audio_service Live.AudioSession.vad_service] in *.
    now rewrite Ha, Hv.
  - cbn [fst Live.AudioSession.audio_service Live.AudioSession.vad_service].
    now rewrite Ha.
Qed.

Lemma live_reachable_blank (reader0 r : Reader) (loaded0 n : Net)
    (s : Live.AudioSession.t Reader Net) :
  Live.AudioSession.session_reachable Reader append_bytes Net forward b64decode
    reader0 loaded0 s ->
  Live.AudioSession.with_objects Reader Net r n (Live.AudioSession.reset Reader Net s)
  = Live.AudioSession.init Reader Net r n.
Proof.
  induction 1 as [|s now data _ IH|s _ IH].
  - reflexivity.
  - now rewrite live_body_blank.
  - exact IH.
Qed.

Lemma live_run_reachable (reader0 : Reader) (loaded0 : Net)
    (chunks : list (float * string)) :
  forall s,
    Live.AudioSession.session_reachable Reader append_bytes Net forward b64decode
      reader0 loaded0 s ->
    Live.AudioSession.session_reachable Reader append_bytes Net forward b64decode
      reader0 loaded0
      (fst (Live.AudioSession.session_run Reader append_bytes Net forward b64decode
              s chunks)).
Proof.
  induction chunks as [|[now data] rest IH]; intros s Hs; [exact Hs|].
  cbn [Live.AudioSession.session_run].
  pose proof (Live.AudioSession.reach_chunk Reader append_bytes Net forward
                b64decode reader0 loaded0 s now data Hs) as H1.
  destruct (Live.AudioSession.audio_chunk_body Reader append_bytes Net forward b64decode
              s now data) as [s1 sent1].
  cbn [fst] in H1. specialize (IH s1 H1).
  now destruct (Live.AudioSession.session_run Reader append_bytes Net forward b64decode
                  s1 rest) as [s2 sent2].
Qed.

(** C5 (amended): [reset()] on a session in any reachable state empties the
    resampler buffer and the frame buffer and puts the hysteresis state back
    to not speaking with both counters at zero, all three together, and
    leaves the decoder object and the scorer object as they are.  The session
    is then the one [AudioSession()] builds around a decoder and a scorer in
    those states, and for every sequence of audio chunks that follows it
    sends the messages that session sends. *)
Theorem reset_restores_session_core (reader0 : Reader) (loaded0 : Net)
    (s : Live.AudioSession.t Reader Net) :
  Live.AudioSession.session_reachable Reader append_bytes Net forward b64decode
    reader0 loaded0 s ->
  let r := Live.AudioSession.reset Reader Net s in
  let p := Live.VADService.vad_processor Net
             (Live.AudioSession.vad_service Reader Net r) in
  let reader := Live.AudioService.opus_reader Reader
                  (Live.AudioSession.audio_service Reader Net s) in
  Live.AudioService.audio_buffer Reader
    (Live.AudioSession.audio_service Reader Net r) = []
  /\ Live.VADService.audio_buffer Net
       (Live.AudioSession.vad_service Reader Net r) = []
  /\ Live.SileroVADProcessor.is_speaking Net p = false
  /\ Live.SileroVADProcessor.speech_frames Net p = 0%Z
  /\ Live.SileroVADProcessor.silence_frames Net p = 0%Z
  /\ Live.AudioService.opus_reader Reader
       (Live.AudioSession.audio_service Reader Net r) = reader
  /\ exists net,
       Live.SileroVADProcessor.model Net
         (Live.VADService.vad_processor Net
            (Live.AudioSession.vad_service Reader Net s)) = Some net
       /\ Live.SileroVADProcessor.model Net p = Some net
       /\ r = Live.AudioSession.init Reader Net reader net
       /\ forall chunks,
            Live.AudioSession.session_run Reader append_bytes Net forward b64decode
              r chunks
            = Live.AudioSession.session_run Reader append_bytes Net forward b64decode
                (Live.AudioSession.init Reader Net reader net) chunks.
Proof.
  intros Hreach r p reader. subst r p reader.
  repeat (split; [reflexivity|]).
  pose proof (fun x n => live_reachable_blank reader0 x loaded0 n s Hreach)
    as Hblank.
  destruct s as [[rate rd buf] [[r1 t1 t2 d1 d2 sp f1 f2 fpm [net|]] vbuf]].
  - exists net. split; [reflexivity|]. split; [reflexivity|].
    specialize (Hblank rd net).
    cbn [Live.AudioSession.audio_service Live.AudioService.opus_reader].
    assert (Heq : Live.AudioSession.reset Reader Net
                    {| Live.AudioSession.audio_service :=
                         {| Live.AudioService.sample_rate := rate;
                            Live.AudioService.opus_reader := rd;
                            Live.AudioService.audio_buffer := buf |};
                       Live.AudioSession.vad_service :=
                         {| Live.VADService.vad_processor :=
                              {| Live.SileroVADProcessor.sample_rate := r1;
                                 Live.SileroVADProcessor.speech_threshold := t1;
                                 Live.SileroVADProcessor.silence_threshold := t2;
                                 Live.SileroVADProcessor.min_speech_duration_ms := d1;
                                 Live.SileroVADProcessor.min_silence_duration_ms := d2;
                                 Live.SileroVADProcessor.is_speaking := sp;
                                 Live.SileroVADProcessor.speech_frames := f1;
                                 Live.SileroVADProcessor.silence_frames := f2;
                                 Live.SileroVADProcessor.frames_per_ms := fpm;
                                 Live.SileroVADProcessor.model := Some net |};
                            Live.VADService.audio_buffer := vbuf |} |}
                  = Live.AudioSession.init Reader Net rd net)
      by exact Hblank.
    split; [exact Heq|]. intros chunks. now rewrite Heq.
  - specialize (Hblank rd loaded0). discriminate Hblank.
Qed.

End LiveReset.

Lemma used_streamed_reachable :
  Live.AudioSession.session_reachable
    LiveFixtures.Reader LiveFixtures.append_bytes unit LiveFixtures.forward_plain
    Fixtures.b64decode LiveFixtures.new_reader tt LiveFixtures.used_streamed.
Proof.
  unfold LiveFixtures.used_streamed.
  apply live_run_reachable. apply Live.AudioSession.reach_init.
Defined.

Lemma reset_restores_session_core_witness :
  Live.AudioSession.session_reachable
    LiveFixtures.Reader LiveFixtures.append_bytes unit LiveFixtures.forward_plain
    Fixtures.b64decode LiveFixtures.new_reader tt LiveFixtures.used_streamed
  /\ Live.AudioService.audio_buffer LiveFixtures.Reader
       (Live.AudioSession.audio_service LiveFixtures.Reader unit
          (Live.AudioSession.reset LiveFixtures.Reader unit
             LiveFixtures.used_streamed)) = [].
Proof.
  split; [exact used_streamed_reachable|].
  apply (reset_restores_session_core
           LiveFixtures.Reader LiveFixtures.append_bytes unit
           LiveFixtures.forward_plain Fixtures.b64decode
           LiveFixtures.new_reader tt LiveFixtures.used_streamed
           used_streamed_reachable).
Defined.

(** C5 (as stated, fails): with a stream reader whose first chunk is the
    header, a session that is speaking after six chunks is reset and then
    fed five loud chunks: it emits [speech_start], where a newly constructed
    session fed the same five chunks emits nothing, its reader taking the
    first of them for the header. *)
Lemma reset_session_differs_from_new :
  Live.AudioSession.session_reachable
    LiveFixtures.Reader LiveFixtures.append_bytes unit LiveFixtures.forward_plain
    Fixtures.b64decode LiveFixtures.new_reader tt LiveFixtures.used_streamed
  /\ Live.VADService.is_speaking unit
       (Live.AudioSession.vad_service LiveFixtures.Reader unit
          LiveFixtures.used_streamed) = true
  /\ event_messages
       (snd (Live.AudioSession.session_run
               LiveFixtures.Reader LiveFixtures.append_bytes unit
               LiveFixtures.forward_plain Fixtures.b64decode
               (Live.AudioSession.reset LiveFixtures.Reader unit
                  LiveFixtures.used_streamed)
               LiveFixtures.five_loud)) = [speech_start]
  /\ event_messages
       (snd (Live.AudioSession.session_run
               LiveFixtures.Reader LiveFixtures.append_bytes unit
               LiveFixtures.forward_plain Fixtures.b64decode
               LiveFixtures.new_streamed LiveFixtures.five_loud)) = [].
Proof.
  split; [exact used_streamed_reachable|].
  repeat split; vm_compute; reflexivity.
Qed.

(** The same with a scorer that remembers its previous answer and a reader
    without memory. *)
Example ex_reset_keeps_scorer_memory :
  event_messages
    (snd (Live.AudioSession.session_run
            unit LiveFixtures.append_bytes_plain LiveFixtures.Net
            LiveFixtures.forward Fixtures.b64decode
            (Live.AudioSession.reset unit LiveFixtures.Net
               LiveFixtures.used_averaged)
            LiveFixtures.five_loud)) = [speech_start]
  /\ event_messages
       (snd (Live.AudioSession.session_run
               unit LiveFixtures.append_bytes_plain LiveFixtures.Net
               LiveFixtures.forward Fixtures.b64decode
               LiveFixtures.new_averaged LiveFixtures.five_loud)) = [].
Proof. split; vm_compute; reflexivity. Qed.
